(** * llm_generation_server / visuallm: formatter, next-token component, metrics mixin

    A shallow embedding of
      - [llm_generation_server/formatters/softmax_formatter.py],
      - [llm_generation_server/next_token_prediction_component.py],
      - [visuallm/components/mixins/metrics_mixin.py],
    and the properties of them that the specification talks about.

    Conventions of the embedding:
      - a Python [float] is an IEEE 754 binary64 number, i.e. Rocq's
        primitive [float]; [x * 100] is [PrimFloat.mul], [<] is
        [PrimFloat.ltb];
      - a Python [int] is a [Z];
      - a call that may raise returns [result A = pyexn + A]; an exception
        is identified by the name of its class;
      - an object whose attributes are assigned is passed and returned
        explicitly (state passing); a method that a subclass supplies is
        a [method]: it receives the object and returns it, changed or
        not, with its result or its exception;
      - an attribute that does not exist yet, or holds [None], is [None]. *)

From Stdlib Require Import ZArith Floats List String Ascii Lia Sorted Permutation.
From Stdlib Require Import DecimalString.
From stdpp Require Import gmap strings.
Import ListNotations.

Set Warnings "-inexact-float".
Local Open Scope string_scope.

(** ** Python exceptions and fallible calls *)

Inductive pyexn : Type :=
| Raise (cls : string).

Definition AttributeError : pyexn := Raise "AttributeError".
Definition TypeError : pyexn := Raise "TypeError".
Definition KeyError : pyexn := Raise "KeyError".
Definition ValueError : pyexn := Raise "ValueError".
Definition IndexError : pyexn := Raise "IndexError".

Definition result (A : Type) : Type := (pyexn + A)%type.

Definition ret {A} (a : A) : result A := inr a.
Definition raise {A} (e : pyexn) : result A := inl e.

Definition bind {A B} (m : result A) (k : A -> result B) : result B :=
  match m with
  | inl e => inl e
  | inr a => k a
  end.

Notation "'let*' x ':=' m 'in' k" := (bind m (fun x => k))
  (at level 10, x pattern, m at level 200, k at level 200).

(** A method of an object with state [O]: it may assign attributes of the
    object and may raise; it gives back its result, or the exception,
    together with the object as it left it. *)
Definition method (O A : Type) : Type := O -> result A * O.

Definition mret {O A} (a : A) : method O A := fun self => (inr a, self).

Definition mbind {O A B} (m : method O A) (k : A -> method O B)
    : method O B :=
  fun self =>
    match m self with
    | (inl e, self') => (inl e, self')
    | (inr a, self') => k a self'
    end.

Notation "'let!' x ':=' m 'in' k" := (mbind m (fun x => k))
  (at level 10, x pattern, m at level 200, k at level 200).

(** A list comprehension whose body may raise. *)
Fixpoint mapM {A B} (f : A -> result B) (l : list A) : result (list B) :=
  match l with
  | [] => ret []
  | a :: l' => let* b := f a in let* bs := mapM f l' in ret (b :: bs)
  end.

(** ** Python floats *)

(** [x == x], false exactly for NaN. *)
Definition is_number (x : float) : bool := PrimFloat.eqb x x.

(** ** [heapq.nlargest]

    Python library code. [nlargest(n, iterable, key)] is documented as
    equivalent to [sorted(iterable, key=key, reverse=True)[:n]]; for
    [n <= 0] the implementation returns the empty list. [sorted] is stable
    also with [reverse=True] and compares keys with [<] only: the model is
    a stable insertion sort into descending order. For keys that are
    numbers this is what the library returns on each of its paths ([max]
    for [n = 1], the heap otherwise). With a NaN among the keys [<] is no
    order and the library may return other elements, in another order,
    than this sort does; what is proved about the ranking of the result
    is proved for keys without NaN. *)
Module heapq.
Section Nlargest.
Context {A : Type} (key : A -> float).

(** [x] comes from an earlier position than every element of [l]: it
  goes in front of the first element that is not strictly larger. *)
Fixpoint insert_desc (x : A) (l : list A) : list A :=
match l with
| [] => [x]
| y :: l' =>
    if PrimFloat.ltb (key x) (key y) then y :: insert_desc x l'
    else x :: y :: l'
end.

Definition sorted_reverse (l : list A) : list A :=
fold_right insert_desc [] l.

Definition nlargest (n : Z) (l : list A) : list A :=
if (n <=? 0)%Z then [] else firstn (Z.to_nat n) (sorted_reverse l).
End Nlargest.
End heapq.

(** ** [formatters/softmax_formatter.py] *)
Module SoftmaxFormatter.

Record Continuation : Type := mkContinuation {
  is_long : bool;
  content : string;
  probs : list float
}.

(** [FormattedContext(name=..., type=..., content=dict(possibilities=...,
    address=...))]; the class itself is in [formatters/format.py]. *)
Record FormattedContext : Type := mkFormattedContext {
  fc_name : string;
  fc_type : string;
  fc_possibilities : list Continuation;
  fc_address : string
}.

(** The attributes of a [SoftmaxFormatter]. [name] and [changed] are
    those of the base class [Formatter]; [endpoint_callback] is a
    callable that none of the methods below calls and is left out. *)
Record t : Type := mk {
  name : string;
  changed : bool;
  n_largest_tokens_to_return : Z;
  _possibilities : list Continuation;
  endpoint_url : string;
  long_tokens : bool
}.

(** [@property possibilities] *)
Definition possibilities (self : t) : list Continuation :=
  _possibilities self.

(** [@possibilities.setter]:
    [self.changed = True; self._possibilities = value] *)
Definition possibilities_setter (self : t) (value : list Continuation) : t :=
  {| name := name self;
     changed := true;
     n_largest_tokens_to_return := n_largest_tokens_to_return self;
     _possibilities := value;
     endpoint_url := endpoint_url self;
     long_tokens := long_tokens self |}.

(** [zip] stops at the shorter argument, as [combine] does. *)
Definition assign_words_to_probs (self : t) (probs : list float)
    (word_vocab : list string) : result (list Continuation) :=
  let n_largest :=
    heapq.nlargest fst (n_largest_tokens_to_return self)
      (combine probs word_vocab) in
  ret (map (fun x => mkContinuation (long_tokens self) (snd x)
                       [PrimFloat.mul (fst x) 100%float])
           n_largest).

(** [self.changed = False], then the formatted context is returned. *)
Definition format (self : t) : FormattedContext * t :=
  let self' :=
    {| name := name self;
       changed := false;
       n_largest_tokens_to_return := n_largest_tokens_to_return self;
       _possibilities := _possibilities self;
       endpoint_url := endpoint_url self;
       long_tokens := long_tokens self |} in
  (mkFormattedContext (name self') "softmax" (possibilities self')
     (endpoint_url self'),
   self').

End SoftmaxFormatter.

(** ** [next_token_prediction_component.py] *)
Module NextTokenPrediction.

Record Continuation : Type := mkContinuation {
  token : string;
  prob : float
}.

(** [word_vocab] is [None] until [initialize_vocab] has run; the
    attribute [_context] does not exist until [initialize_context] has
    run. *)
Record t : Type := mk {
  n_largest_tokens_to_return : Z;
  word_vocab : option (list string);
  _context : option string
}.

Definition __init__ (n_largest_tokens_to_return : Z) : t :=
  mk n_largest_tokens_to_return None None.

(** The body sent back by [jsonify(dict(result=..., context=...,
    continuations=...))]. *)
Record Response : Type := mkResponse {
  result_ : string;
  context : string;
  continuations : list Continuation
}.

Definition set_context (self : t) (context : string) : t :=
  mk (n_largest_tokens_to_return self) (word_vocab self) (Some context).

Definition set_word_vocab (self : t) (v : list string) : t :=
  mk (n_largest_tokens_to_return self) (Some v) (_context self).

(** Reading [self._context]: [AttributeError] while it does not exist. *)
Definition get_context (self : t) : result string :=
  match _context self with
  | Some c => ret c
  | None => raise AttributeError
  end.

Definition initialize_context (self : t) (context : string) : t :=
  set_context self context.

(** [zip(probs, self.word_vocab)] raises [TypeError] on [None]. *)
Definition create_continuations (self : t) (probs : list float)
    : result (list Continuation) :=
  match word_vocab self with
  | None => raise TypeError
  | Some vocab =>
      let n_largest :=
        heapq.nlargest fst (n_largest_tokens_to_return self)
          (combine probs vocab) in
      ret (map (fun x => mkContinuation (snd x)
                           (PrimFloat.mul (fst x) 100%float))
               n_largest)
  end.

(** A component object: the attributes of the base class and the
    attributes [S] that the concrete subclass adds. *)
Definition object (S : Type) : Type := (t * S)%type.

(** The methods that a concrete subclass supplies: the three abstract
    ones and [format_context], which the base class defines and a
    subclass may override. They are methods of the object: they may read
    and assign its attributes, those of the subclass included (a cache, the
    state of a sampler), and may raise. [post_token] is what
    [data.get('token')] gave, [None] when the key is missing. *)
Class Subclass (S : Type) : Type := {
  initialize_vocab : method (object S) unit;
  append_to_context : string -> option string -> method (object S) string;
  get_next_token_predictions :
    string -> method (object S) (list Continuation);
  format_context : string -> method (object S) string
}.

(** [format_context] of the base class: [return context]. *)
Definition base_format_context {S} (context : string)
    : method (object S) string :=
  mret context.

(** Reading and assigning [self._context]. *)
Definition read_context {S} : method (object S) string :=
  fun self => (get_context (fst self), self).

Definition write_context {S} (context : string) : method (object S) unit :=
  fun self => (inr tt, (set_context (fst self) context, snd self)).

Section Methods.
Context {S : Type} `{Subclass S}.

(** The arguments of [dict(...)] are evaluated from left to right;
    [self._context] is read once for each of the two calls. *)
Definition fetch : method (object S) Response :=
  let! c := read_context in
  let! context := format_context c in
  let! c' := read_context in
  let! continuations := get_next_token_predictions c' in
  mret (mkResponse "success" context continuations).

(** [data] is the JSON object of the request. The assignment to
    [self._context] happens before the predictions are computed. *)
Definition select (data : gmap string string) : method (object S) Response :=
  let post_token := data !! "token" in
  let! c := read_context in
  let! new_context := append_to_context c post_token in
  let! _ := write_context new_context in
  let! c1 := read_context in
  let! context := format_context c1 in
  let! c2 := read_context in
  let! continuations := get_next_token_predictions c2 in
  mret (mkResponse "success" context continuations).
End Methods.

End NextTokenPrediction.

(** ** [str.format] on a float

    Python library code, for a call [fmt.format(x)] with the one
    positional argument [x], a float. The model covers templates made of
    literal text, the escapes [{{] and [}}], and replacement fields:
      - the argument of a field is found as Python finds it: an empty
        name takes the next positional argument, a number names one, and
        since there is one argument only the index 0 exists
        ([IndexError] otherwise); any other name is a keyword argument,
        of which there is none ([KeyError]); a template that uses both
        empty names and numbers raises [ValueError];
      - of the format specifications the fixed-point one, [.Nf], is
        modelled: the value is rounded correctly (half to even, on its
        exact binary value) to [N] decimals;
      - a stray brace raises [ValueError].
    Everything else that Python accepts in a field (no specification, the
    other presentation types, width, sign and alignment, conversions,
    attributes, nested fields) is outside the model: the model answers
    [ValueError] there, where Python would format. Nothing is proved
    about such templates. *)
Module pystr.

Definition pow10 (n : nat) : Z := (10 ^ Z.of_nat n)%Z.

(** [m * 2^e * 10^prec], rounded to the nearest integer, ties to even. *)
Definition scaled_round (prec : nat) (m : positive) (e : Z) : Z :=
  if (0 <=? e)%Z then (Z.pos m * 2 ^ e * pow10 prec)%Z
  else
    let num := (Z.pos m * pow10 prec)%Z in
    let den := (2 ^ (- e))%Z in
    let q := (num / den)%Z in
    let r := (num mod den)%Z in
    if (den <? 2 * r)%Z then (q + 1)%Z
    else if (den =? 2 * r)%Z then (if Z.odd q then q + 1 else q)%Z
    else q.

Fixpoint zeros (n : nat) : string :=
  match n with
  | O => ""
  | S n' => String "0" (zeros n')
  end.

(** The digits of [q], a decimal point before the last [prec] of them. *)
Definition place_point (prec : nat) (q : Z) : string :=
  let ds := NilZero.string_of_uint (N.to_uint (Z.to_N q)) in
  let ds := zeros (S prec - String.length ds) ++ ds in
  let k := (String.length ds - prec)%nat in
  match prec with
  | O => ds
  | _ => substring 0 k ds ++ "." ++ substring k prec ds
  end.

Definition format_fixed (prec : nat) (x : float) : string :=
  match Prim2SF x with
  | S754_nan => "nan"
  | S754_infinity s => if s then "-inf" else "inf"
  | S754_zero s => (if s then "-" else "") ++ place_point prec 0
  | S754_finite s m e =>
      (if s then "-" else "") ++ place_point prec (scaled_round prec m e)
  end.

Definition is_digit (c : ascii) : bool :=
  let n := nat_of_ascii c in (48 <=? n)%nat && (n <=? 57)%nat.

(** Leading decimal digits of [s] as a number, and how many there were. *)
Fixpoint read_digits (s : string) (acc count : nat) : nat * nat * string :=
  match s with
  | String c s' =>
      if is_digit c
      then read_digits s' (10 * acc + (nat_of_ascii c - 48)) (S count)
      else (acc, count, s)
  | EmptyString => (acc, count, s)
  end.

(** How the fields of the template have named their argument so far. *)
Inductive numbering : Type :=
| Unset
| Automatic (next : nat)
| Manual.

Definition is_name_end (c : ascii) : bool :=
  Ascii.eqb c "." || Ascii.eqb c "[" || Ascii.eqb c "!" || Ascii.eqb c ":".

(** The name of the argument of a field, and what follows it. *)
Fixpoint split_name (field : string) : string * string :=
  match field with
  | EmptyString => ("", "")
  | String c rest =>
      if is_name_end c then ("", field)
      else let '(name, after) := split_name rest in (String c name, after)
  end.

(** The index of the positional argument that a field takes, and the
    numbering after the field. *)
Definition resolve (num : numbering) (name : string)
    : result (nat * numbering) :=
  match name with
  | EmptyString =>
      match num with
      | Manual => raise ValueError
      | Unset => ret (0%nat, Automatic 1)
      | Automatic next => ret (next, Automatic (S next))
      end
  | _ =>
      match read_digits name 0 0 with
      | (index, _, EmptyString) =>
          match num with
          | Automatic _ => raise ValueError
          | _ => ret (index, Manual)
          end
      | _ => raise KeyError
      end
  end.

(** What follows the name: the format specification. *)
Definition render_spec (after : string) (x : float) : result string :=
  match after with
  | String ":" (String "." rest) =>
      match read_digits rest 0 0 with
      | (prec, S _, "f") => ret (format_fixed prec x)
      | _ => raise ValueError
      end
  | _ => raise ValueError
  end.

(** What is between the braces of a replacement field. *)
Definition render_field (num : numbering) (field : string) (x : float)
    : result (string * numbering) :=
  let '(name, after) := split_name field in
  let* resolved := resolve num name in
  match fst resolved with
  | O => let* piece := render_spec after x in ret (piece, snd resolved)
  | S _ => raise IndexError
  end.

Inductive scan : Type :=
| Text                      (* in literal text *)
| Opened                    (* just after a left brace *)
| Field (field : string)    (* inside a replacement field *)
| Closed.                   (* just after a right brace in literal text *)

Fixpoint scan_format (st : scan) (num : numbering) (s : string) (x : float)
    : result string :=
  match s with
  | EmptyString =>
      match st with
      | Text => ret ""
      | _ => raise ValueError
      end
  | String c s' =>
      match st with
      | Text =>
          if Ascii.eqb c "{" then scan_format Opened num s' x
          else if Ascii.eqb c "}" then scan_format Closed num s' x
          else let* out := scan_format Text num s' x in ret (String c out)
      | Opened =>
          if Ascii.eqb c "{"
          then let* out := scan_format Text num s' x in ret (String "{" out)
          else if Ascii.eqb c "}"
          then let* rendered := render_field num "" x in
               let* out := scan_format Text (snd rendered) s' x in
               ret (fst rendered ++ out)
          else scan_format (Field (String c "")) num s' x
      | Field field =>
          if Ascii.eqb c "}"
          then let* rendered := render_field num field x in
               let* out := scan_format Text (snd rendered) s' x in
               ret (fst rendered ++ out)
          else scan_format (Field (field ++ String c "")) num s' x
      | Closed =>
          if Ascii.eqb c "}"
          then let* out := scan_format Text num s' x in ret (String "}" out)
          else raise ValueError
      end
  end.

(** [fmt.format(x)] *)
Definition format (fmt : string) (x : float) : result string :=
  scan_format Text Unset fmt x.

End pystr.

(** ** [visuallm/components/mixins/metrics_mixin.py] *)
Module MetricsMixin.
Local Open Scope list_scope.

(** A Python [dict] whose iteration order is used: the items in
    insertion order. *)
Definition dict (V : Type) : Type := list (string * V).

Definition keys {V} (d : dict V) : list string := map fst d.

Fixpoint get {V} (name : string) (d : dict V) : option V :=
  match d with
  | [] => None
  | (k, v) :: d' => if String.eqb name k then Some v else get name d'
  end.

Record MetricDescription : Type := mkMetricDescription {
  format : string;
  scalable : bool
}.

Record GeneratedTextMetric : Type := mkGeneratedTextMetric {
  gt_description :> MetricDescription;
  gt_metric_calculation : string -> string -> result float
}.

(** [CheckBoxSubElement(key, True)]: only the attribute [selected] is
    read by the mixin. *)
Record CheckBoxSubElement : Type := mkCheckBoxSubElement {
  label : string;
  selected : bool
}.

(** Modelled from the spec: [PieceInfo], of
    [visuallm/elements/barchart_element.py], which is not among the
    sources: a piece is a title and three parallel sequences, built here
    with the keyword arguments of the call in the source. The spec gives
    a bar height the range from 0 to 100; what the constructor does with
    other heights is not part of this model, so that what is proved about
    stored pieces is proved of a call that returns. *)
Record PieceInfo : Type := mkPieceInfo {
  pieceTitle : string;
  barHeights : list float;
  barAnnotations : list string;
  barNames : list string
}.

Record BarChartElement : Type := mkBarChartElement {
  long_contexts : bool;
  changed : bool;
  piece_infos : list PieceInfo
}.

(** Modelled from the spec: [BarChartElement.set_piece_infos], of
    [visuallm/elements/barchart_element.py], which is not among the
    sources: a setter stores the payload and marks the element changed. *)
Definition set_piece_infos (element : BarChartElement)
    (pieces : list PieceInfo) : BarChartElement :=
  mkBarChartElement (long_contexts element) true pieces.

(** [min(a, b)] of Python: [b] when [b < a], else [a]. *)
Definition py_min (a b : float) : float :=
  if PrimFloat.ltb b a then b else a.

Fixpoint foldM {A B} (f : B -> A -> result B) (acc : B) (l : list A)
    : result B :=
  match l with
  | [] => ret acc
  | a :: l' => let* acc' := f acc a in foldM f acc' l'
  end.

Definition create_ordering {V W} (metrics_on_generated_text : dict V)
    (metrics_on_probs : dict W) : list string :=
  keys metrics_on_generated_text ++ keys metrics_on_probs.

(** The dictionary [_select_metrics_elements] that
    [_prepare_metrics_selection_frontend] builds. *)
Definition _prepare_metrics_selection_frontend (ordering : list string)
    : gmap string CheckBoxSubElement :=
  fold_left (fun elements key => <[key := mkCheckBoxSubElement key true]> elements)
    ordering ∅.

Section WithTensor.
Context {Tensor : Type}.

Record ProbsMetric : Type := mkProbsMetric {
  pm_description :> MetricDescription;
  pm_metric_calculation : Tensor -> Tensor -> result float
}.

(** The attributes of the mixin that the computation of the metrics
    uses; the headings and the button are left out. *)
Record t : Type := mk {
  _ordering : list string;
  _select_metrics_elements : gmap string CheckBoxSubElement;
  _metrics_on_generated_text : dict GeneratedTextMetric;
  _metrics_on_probs : dict ProbsMetric;
  _display_metrics_on_predicted_element : BarChartElement;
  _display_metrics_on_target_element : BarChartElement
}.

(** The three lists filled by the inner loop. *)
Record bars : Type := mkBars {
  bar_names : list string;
  bar_annotations : list string;
  bar_heights : list float
}.

(** The metric behind [name] and its value for one candidate. *)
Definition calculate (self : t) (name generated_text label_text : string)
    (labels_encoded generated_encoded : Tensor)
    : result (MetricDescription * float) :=
  match get name (_metrics_on_generated_text self) with
  | Some metric_description =>
      let* r := gt_metric_calculation metric_description
                  generated_text label_text in
      ret (gt_description metric_description, r)
  | None =>
      match get name (_metrics_on_probs self) with
      | Some metric_description =>
          let* r := pm_metric_calculation metric_description
                      labels_encoded generated_encoded in
          ret (pm_description metric_description, r)
      | None => raise KeyError
      end
  end.

Definition bar_height (metric_description : MetricDescription)
    (r : float) : float :=
  if scalable metric_description
  then py_min (PrimFloat.mul r 100%float) 100%float
  else 100%float.

(** One round of [for name in self._ordering]. *)
Definition metric_step (self : t) (generated_text label_text : string)
    (labels_encoded generated_encoded : Tensor)
    (acc : bars) (name : string) : result bars :=
  match _select_metrics_elements self !! name with
  | None => raise KeyError
  | Some checkbox =>
      if negb (selected checkbox) then ret acc
      else
        let names := bar_names acc ++ [name] in
        let* calculated :=
          calculate self name generated_text label_text
            labels_encoded generated_encoded in
        let '(metric_description, r) := calculated in
        let heights := bar_heights acc ++ [bar_height metric_description r] in
        let* annotation := pystr.format (format metric_description) r in
        ret (mkBars names (bar_annotations acc ++ [annotation]) heights)
  end.

(** One round of the loop over the candidates. *)
Definition piece_step (self : t) (label_text : string)
    (pieces : list PieceInfo) (candidate : string * Tensor * Tensor)
    : result (list PieceInfo) :=
  let '(generated_text, labels_encoded, generated_encoded) := candidate in
  let* b := foldM (metric_step self generated_text label_text
                     labels_encoded generated_encoded)
              (mkBars [] [] []) (_ordering self) in
  ret (pieces ++ [mkPieceInfo generated_text (bar_heights b)
                    (bar_annotations b) (bar_names b)]).

(** [zip] of three sequences. *)
Definition zip3 {X Y W} (xs : list X) (ys : list Y) (ws : list W)
    : list (X * Y * W) :=
  combine (combine xs ys) ws.

(** The element is written only after both loops have finished. *)
Definition _compute_n_display_metrics_for_element (self : t)
    (generated_text_list : list string) (label_text : string)
    (probs_encoded_list generated_encoded_list : list Tensor)
    (element : BarChartElement) : result unit * BarChartElement :=
  match foldM (piece_step self label_text) []
          (zip3 generated_text_list probs_encoded_list
             generated_encoded_list) with
  | inl e => (inl e, element)
  | inr pieces => (inr tt, set_piece_infos element pieces)
  end.

Definition compute_n_display_metrics_on_predicted (self : t)
    (generated_text_list : list string) (label_text : string)
    (probs_encoded_list generated_encoded_list : list Tensor)
    : result unit * t :=
  let '(r, element) :=
    _compute_n_display_metrics_for_element self generated_text_list
      label_text probs_encoded_list generated_encoded_list
      (_display_metrics_on_predicted_element self) in
  (r, mk (_ordering self) (_select_metrics_elements self)
        (_metrics_on_generated_text self) (_metrics_on_probs self)
        element (_display_metrics_on_target_element self)).

Definition compute_n_display_metrics_on_target (self : t)
    (target : string) (probs_target target_encoded : list Tensor)
    : result unit * t :=
  let '(r, element) :=
    _compute_n_display_metrics_for_element self [target] target
      probs_target target_encoded
      (_display_metrics_on_target_element self) in
  (r, mk (_ordering self) (_select_metrics_elements self)
        (_metrics_on_generated_text self) (_metrics_on_probs self)
        (_display_metrics_on_predicted_element self) element).

(** [name] has a checkbox and it is selected. *)
Definition is_selected (self : t) (name : string) : bool :=
  match _select_metrics_elements self !! name with
  | Some checkbox => selected checkbox
  | None => false
  end.

(** The names whose checkbox is selected, in the order of
    [_ordering]. *)
Definition selected_names (self : t) : list string :=
  List.filter (is_selected self) (_ordering self).

(** The piece that the specification describes for a candidate: its
    text as title, one bar per selected metric in the order of
    [_ordering], and as many heights and annotations as names. *)
Definition piece_of (self : t) (candidate : string * Tensor * Tensor)
    (piece : PieceInfo) : Prop :=
  pieceTitle piece = fst (fst candidate)
  /\ barNames piece = selected_names self
  /\ length (barHeights piece) = length (barNames piece)
  /\ length (barAnnotations piece) = length (barNames piece).

(** What [__init__] establishes, and what toggling checkboxes keeps. *)
Definition constructed (self : t) : Prop :=
  _ordering self =
    create_ordering (_metrics_on_generated_text self)
      (_metrics_on_probs self)
  /\ forall name, In name (_ordering self) ->
       exists checkbox, _select_metrics_elements self !! name = Some checkbox.

(** [__init__], for the attributes kept in [t]. The two elements are
    built by [BarChartElement(long_contexts=True)]; the constructor is
    not among the sources and is taken as [new_bar_chart]. *)
Definition __init__ (new_bar_chart : bool -> BarChartElement)
    (metrics_on_generated_text : dict GeneratedTextMetric)
    (metrics_on_probs : dict ProbsMetric) : t :=
  let ordering :=
    create_ordering metrics_on_generated_text metrics_on_probs in
  let predicted := new_bar_chart true in
  let target := new_bar_chart true in
  mk ordering (_prepare_metrics_selection_frontend ordering)
    metrics_on_generated_text metrics_on_probs predicted target.

(** The bar of one metric for one candidate: its height and its
    annotation. *)
Definition bar_for (self : t) (label_text : string)
    (candidate : string * Tensor * Tensor) (name : string)
    : result (float * string) :=
  let '(generated_text, labels_encoded, generated_encoded) := candidate in
  let* calculated :=
    calculate self name generated_text label_text labels_encoded
      generated_encoded in
  let* annotation :=
    pystr.format (format (fst calculated)) (snd calculated) in
  ret (bar_height (fst calculated) (snd calculated), annotation).

End WithTensor.
Arguments ProbsMetric : clear implicits.
Arguments t : clear implicits.

End MetricsMixin.

(** ** [examples_py/bar_chart_component_simple.py]

    The functions that prepare the vocabulary and the random
    probabilities. What comes from outside is an argument: the lines of
    the downloaded word list, the codec, [math.exp], [sum] on floats
    (whose rounding depends on the version of the interpreter) and the
    values that the module [random] produces. *)
Module BarChartSimple.
Local Open Scope list_scope.

Definition IndexError : pyexn := Raise "IndexError".
Definition ZeroDivisionError : pyexn := Raise "ZeroDivisionError".
Definition OverflowError : pyexn := Raise "OverflowError".

(** The conversion of an [int] to a [float] in mixed arithmetic: the
    nearest float, [OverflowError] when there is none. *)
Definition float_of_int (z : Z) : result float :=
  let f := SF2Prim (binary_normalize 53 1024 z 0 false) in
  if PrimFloat.is_infinity f then raise OverflowError else ret f.

(** [seq[i]] on a list of length [n]: a negative index counts from the
    end, an index outside raises [IndexError]. *)
Definition py_index (n : nat) (i : Z) : result nat :=
  if ((0 <=? i) && (i <? Z.of_nat n))%Z then ret (Z.to_nat i)
  else if ((- Z.of_nat n <=? i) && (i <? 0))%Z
       then ret (Z.to_nat (Z.of_nat n + i))
       else raise IndexError.

(** The module [random]: [uniform i] is what the [i]-th call of
    [random.random()] in [random_noise] returns, [pick j] decides the
    position of the [j]-th element that [random.choices] takes. *)
Record random_source : Type := mkRandomSource {
  uniform : nat -> float;
  pick : nat -> nat
}.

(** [random.choices(population, k=k)]: [k] elements of the population,
    with repetition; indexing an empty population raises [IndexError]. *)
Definition choices (src : random_source) (population : list Z) (k : nat)
    : result (list Z) :=
  mapM (fun j =>
          match population with
          | [] => raise IndexError
          | _ => ret (nth (pick src j mod length population) population 0%Z)
          end)
       (seq 0 k).

(** [random_noise(lower_bound, upper_bound)], [u] being the value of
    [random.random()]. *)
Definition random_noise (lower_bound upper_bound : Z) (u : float)
    : result float :=
  if (lower_bound >=? upper_bound)%Z then raise ValueError
  else
    let range_size := (upper_bound - lower_bound)%Z in
    let* range_size' := float_of_int range_size in
    let scaled := PrimFloat.mul u range_size' in
    let* lower_bound' := float_of_int lower_bound in
    ret (PrimFloat.add scaled lower_bound').

(** [for i, p in zip(ten_samples, ten_probs): probs[i][0] = p * 100] *)
Fixpoint assign_rows (probs : list (list float))
    (pairs : list (Z * float)) : result (list (list float)) :=
  match pairs with
  | [] => ret probs
  | (i, p) :: pairs' =>
      let* position := py_index (length probs) i in
      match probs !! position with
      | Some (_ :: rest) =>
          assign_rows
            (<[position := PrimFloat.mul p 100%float :: rest]> probs) pairs'
      | _ => raise IndexError
      end
  end.

Section WithLibraries.
Variable decode : string -> result string.
Variable exp : float -> result float.
Variable fsum : list float -> float.

(** [content_lines] is [response.content.splitlines()]. *)
Definition download_word_vocabulary (content_lines : list string)
    : result (list string * list Z) :=
  let* word_vocab := mapM decode content_lines in
  let word_ids :=
    map (fun x => Z.of_nat (fst x))
      (combine (seq 0 (length word_vocab)) word_vocab) in
  ret (word_vocab, word_ids).

Definition sample_ten_words (src : random_source) (word_ids : list Z)
    : result (list (list float)) :=
  let k := 10%nat in
  let* ten_samples := choices src word_ids k in
  let* ten_numbers :=
    mapM (fun i =>
            let* noise := random_noise (-1) 1 (uniform src i) in
            let* i' := float_of_int (Z.of_nat i) in
            exp (PrimFloat.add i' noise))
         (seq 0 k) in
  let ten_numbers_sum := fsum ten_numbers in
  let* ten_probs :=
    mapM (fun n =>
            if PrimFloat.eqb ten_numbers_sum 0%float
            then raise ZeroDivisionError
            else ret (PrimFloat.div n ten_numbers_sum))
         ten_numbers in
  let probs := map (fun _ => [0%float]) word_ids in
  assign_rows probs (combine ten_samples ten_probs).
End WithLibraries.

End BarChartSimple.

(** * Specification vocabulary *)

Local Open Scope list_scope.

(** [before p i j]: in the ranking of the probability vector [p], index
    [i] comes before index [j]: its probability is strictly larger, or
    the two tie and [i] is the earlier vocabulary position. *)
Definition before (p : list float) (i j : nat) : Prop :=
  PrimFloat.ltb (nth j p 0%float) (nth i p 0%float) = true
  \/ (PrimFloat.ltb (nth i p 0%float) (nth j p 0%float) = false /\ i < j).

(** [chosen] is the first [n] indices of [p] in that ranking. *)
Definition ranked_top (n : Z) (p : list float) (chosen : list nat) : Prop :=
  exists order : list nat,
    Permutation order (seq 0 (length p))
    /\ StronglySorted (before p) order
    /\ chosen = firstn (Z.to_nat n) order.

(** A row that holds exactly one number. *)
Definition singleton_row (row : list float) : Prop := exists x, row = [x].

(** * Example inputs *)

Definition example_probs : list float := [0.1; 0.7; 0.2]%float.
Definition example_vocab : list string := ["a"; "b"; "c"].

Definition example_formatter : SoftmaxFormatter.t :=
  SoftmaxFormatter.mk "softmax" false 2 [] "/select" false.

Definition example_component : NextTokenPrediction.t :=
  NextTokenPrediction.mk 2 (Some example_vocab) (Some "").

(** A formatter holding a payload that was not yet sent. *)
Definition dirty_formatter : SoftmaxFormatter.t :=
  SoftmaxFormatter.mk "softmax" true 2
    [SoftmaxFormatter.mkContinuation false "b" [70%float]] "/select" false.

(** A subclass in the manner of the examples of the repository: the
    model is a fixed distribution, the token is appended as it is, the
    context is shown as it is. It adds no attribute. *)
Definition example_subclass : NextTokenPrediction.Subclass unit :=
  {| NextTokenPrediction.initialize_vocab := fun self =>
       (ret tt,
        (NextTokenPrediction.set_word_vocab (fst self) example_vocab,
         snd self));
     NextTokenPrediction.append_to_context := fun context post_token self =>
       (match post_token with
        | Some tok => ret (context ++ tok)%string
        | None => raise TypeError
        end, self);
     NextTokenPrediction.get_next_token_predictions := fun _ self =>
       (NextTokenPrediction.create_continuations (fst self) example_probs,
        self);
     NextTokenPrediction.format_context :=
       NextTokenPrediction.base_format_context |}.

(** A subclass whose predictions do not go through the vocabulary. *)
Definition constant_subclass : NextTokenPrediction.Subclass unit :=
  {| NextTokenPrediction.initialize_vocab := fun self =>
       (ret tt,
        (NextTokenPrediction.set_word_vocab (fst self) example_vocab,
         snd self));
     NextTokenPrediction.append_to_context := fun context post_token self =>
       (match post_token with
        | Some tok => ret (context ++ tok)%string
        | None => raise TypeError
        end, self);
     NextTokenPrediction.get_next_token_predictions := fun _ self =>
       (ret [NextTokenPrediction.mkContinuation "b" 70%float], self);
     NextTokenPrediction.format_context :=
       NextTokenPrediction.base_format_context |}.


(** A component fresh from its constructor, one whose context only is
    initialized, and one that is ready to serve. *)
Definition fresh_component : NextTokenPrediction.t :=
  NextTokenPrediction.__init__ 2.

Definition component_without_vocab : NextTokenPrediction.t :=
  NextTokenPrediction.initialize_context fresh_component "hi".


(** The body of a request that selects a token. *)
Definition select_request (tok : string) : gmap string string :=
  {[ "token" := tok ]}.

(** Following the words of the specification: a value clamped to the
    interval from 0 to 100. *)
Definition clamp_0_100 (x : float) : float :=
  if PrimFloat.ltb x 0%float then 0%float
  else if PrimFloat.ltb 100%float x then 100%float
  else x.

(** Two metrics in the manner of the examples of the repository: a
    scalable one on the generated text, which divides by the length of
    the text, and one on the probabilities that is not scalable. *)
Definition bleu : MetricsMixin.GeneratedTextMetric :=
  MetricsMixin.mkGeneratedTextMetric
    (MetricsMixin.mkMetricDescription "{:.2f}" true)
    (fun generated_text _ =>
       if String.eqb generated_text "" then raise (Raise "ZeroDivisionError")
       else ret 0.37%float).

Definition nll : MetricsMixin.ProbsMetric (list float) :=
  MetricsMixin.mkProbsMetric
    (MetricsMixin.mkMetricDescription "{:.2f}" false)
    (fun _ _ => ret 0.37%float).

Definition empty_chart : MetricsMixin.BarChartElement :=
  MetricsMixin.mkBarChartElement true false [].

Definition example_mixin : MetricsMixin.t (list float) :=
  let ordering :=
    MetricsMixin.create_ordering [("bleu", bleu)] [("nll", nll)] in
  MetricsMixin.mk ordering
    (MetricsMixin._prepare_metrics_selection_frontend ordering)
    [("bleu", bleu)] [("nll", nll)] empty_chart empty_chart.

(** The same after the checkbox of bleu was cleared. *)
Definition example_mixin_without_bleu : MetricsMixin.t (list float) :=
  MetricsMixin.mk (MetricsMixin._ordering example_mixin)
    (<["bleu" := MetricsMixin.mkCheckBoxSubElement "bleu" false]>
       (MetricsMixin._select_metrics_elements example_mixin))
    [("bleu", bleu)] [("nll", nll)] empty_chart empty_chart.

(** [positions] are the places in the vocabulary of the continuations
    that the formatter, respectively the component, returns for the
    probabilities [p], in the order in which they are returned. *)
Definition formatter_returns (f : SoftmaxFormatter.t) (p : list float)
    (v : list string) (positions : list nat) : Prop :=
  SoftmaxFormatter.assign_words_to_probs f p v
  = inr (map (fun i =>
                SoftmaxFormatter.mkContinuation (SoftmaxFormatter.long_tokens f)
                  (nth i v "") [PrimFloat.mul (nth i p 0%float) 100%float])
             positions).

Definition component_returns (c : NextTokenPrediction.t) (p : list float)
    (v : list string) (positions : list nat) : Prop :=
  NextTokenPrediction.create_continuations c p
  = inr (map (fun i =>
                NextTokenPrediction.mkContinuation (nth i v "")
                  (PrimFloat.mul (nth i p 0%float) 100%float))
             positions).

(** A component with a vocabulary of four words, two of them equally
    likely, that is asked for every word. *)
Definition tie_probs : list float := [0.4; 0.1; 0.4; 0.1]%float.
Definition tie_vocab : list string := ["a"; "b"; "c"; "d"].

Definition generous_component : NextTokenPrediction.t :=
  NextTokenPrediction.mk 10 (Some tie_vocab) (Some "").

Definition generous_formatter : SoftmaxFormatter.t :=
  SoftmaxFormatter.mk "softmax" false 10 [] "/select" true.

(** The same component asked for two words only. *)
Definition frugal_component : NextTokenPrediction.t :=
  NextTokenPrediction.mk 2 (Some tie_vocab) (Some "").

(** A chart as [BarChartElement(long_contexts=...)] may build it. *)
Definition new_chart (long_contexts : bool) : MetricsMixin.BarChartElement :=
  MetricsMixin.mkBarChartElement long_contexts true [].

(** The example mixin as its constructor builds it. *)
Definition fresh_mixin : MetricsMixin.t (list float) :=
  MetricsMixin.__init__ new_chart [("bleu", bleu)] [("nll", nll)].

(** A mixin whose two checkboxes were cleared. *)
Definition example_mixin_without_metrics : MetricsMixin.t (list float) :=
  MetricsMixin.mk (MetricsMixin._ordering example_mixin)
    (<["nll" := MetricsMixin.mkCheckBoxSubElement "nll" false]>
       (MetricsMixin._select_metrics_elements example_mixin_without_bleu))
    [("bleu", bleu)] [("nll", nll)] empty_chart empty_chart.

(** A mixin with the metric on the probabilities only. *)
Definition nll_mixin : MetricsMixin.t (list float) :=
  MetricsMixin.__init__ new_chart [] [("nll", nll)].

(** A word list of three lines, a codec that accepts every line, a
    stand-in for the exponential that is constantly 1, the sum from left
    to right, and a random source that picks the positions 0, 1, 2, 3,
    ... in turn. *)
Definition three_lines : list string := ["the"; "of"; "and"].

Definition accept_all (line : string) : result string := ret line.

Definition flat_exp (x : float) : result float := ret 1%float.

Definition sum_left (l : list float) : float :=
  fold_left PrimFloat.add l 0%float.

Definition round_robin : BarChartSimple.random_source :=
  BarChartSimple.mkRandomSource (fun _ => 0.5%float) (fun j => j).

(** * Facts about the order of floats *)

Ltac sf_cases :=
  repeat match goal with
  | |- context [Pos.compare_cont Eq ?x ?y] =>
      change (Pos.compare_cont Eq x y) with (Pos.compare x y)
  end;
  repeat match goal with
  | |- context [(?x ?= ?y)%Z] => destruct (Z.compare_spec x y)
  | |- context [(?x ?= ?y)%positive] => destruct (Pos.compare_spec x y)
  end; simpl; auto; try discriminate; try lia.

Lemma SFltb_asym a b : SFltb a b = true -> SFltb b a = false.
Proof.
  unfold SFltb, SFcompare.
  destruct a as [[]|[]| |[] m1 e1], b as [[]|[]| |[] m2 e2];
    simpl; try discriminate; try reflexivity; sf_cases.
Qed.

Lemma SFltb_cotrans a b c :
  SFeqb b b = true -> SFltb a c = true ->
  SFltb a b = true \/ SFltb b c = true.
Proof.
  unfold SFltb, SFeqb, SFcompare.
  destruct a as [[]|[]| |[] m1 e1], b as [[]|[]| |[] m2 e2],
           c as [[]|[]| |[] m3 e3];
    simpl; try discriminate; auto; intros _; sf_cases.
Qed.

Lemma ltb_asym (a b : float) :
  PrimFloat.ltb a b = true -> PrimFloat.ltb b a = false.
Proof. rewrite !FloatAxioms.ltb_spec. apply SFltb_asym. Qed.

Lemma ltb_cotrans (a b c : float) :
  is_number b = true -> PrimFloat.ltb a c = true ->
  PrimFloat.ltb a b = true \/ PrimFloat.ltb b c = true.
Proof.
  unfold is_number. rewrite FloatAxioms.eqb_spec, !FloatAxioms.ltb_spec.
  apply SFltb_cotrans.
Qed.

(** * Facts about [heapq.nlargest] *)

Section NlargestFacts.
Context {A : Type} (key : A -> float).

Lemma insert_desc_perm (x : A) (l : list A) :
  Permutation (heapq.insert_desc key x l) (x :: l).
Proof.
  induction l as [|y l IH]; simpl; [reflexivity|].
  destruct (PrimFloat.ltb (key x) (key y)); [|reflexivity].
  apply perm_trans with (y :: x :: l); [now apply perm_skip|apply perm_swap].
Qed.

Lemma sorted_reverse_perm (l : list A) :
  Permutation (heapq.sorted_reverse key l) l.
Proof.
  induction l as [|x l IH]; simpl; [reflexivity|].
  eapply perm_trans; [apply insert_desc_perm|now apply perm_skip].
Qed.

Lemma insert_desc_map {B} (g : B -> A) (x : B) (l : list B) :
  heapq.insert_desc key (g x) (map g l)
  = map g (heapq.insert_desc (fun b => key (g b)) x l).
Proof.
  induction l as [|y l IH]; simpl; [reflexivity|].
  destruct (PrimFloat.ltb (key (g x)) (key (g y))); simpl; congruence.
Qed.

Lemma sorted_reverse_map {B} (g : B -> A) (l : list B) :
  heapq.sorted_reverse key (map g l)
  = map g (heapq.sorted_reverse (fun b => key (g b)) l).
Proof.
  induction l as [|x l IH]; simpl; [reflexivity|].
  rewrite IH. apply insert_desc_map.
Qed.

Lemma insert_desc_ext (key' : A -> float) (x : A) (l : list A) :
  (forall a, key a = key' a) ->
  heapq.insert_desc key x l = heapq.insert_desc key' x l.
Proof.
  intros E. induction l as [|y l IH]; simpl; [reflexivity|].
  rewrite !E, IH. reflexivity.
Qed.

Lemma sorted_reverse_ext (key' : A -> float) (l : list A) :
  (forall a, key a = key' a) ->
  heapq.sorted_reverse key l = heapq.sorted_reverse key' l.
Proof.
  intros E. induction l as [|x l IH]; simpl; [reflexivity|].
  rewrite IH. now apply insert_desc_ext.
Qed.

Lemma nlargest_firstn (n : Z) (l : list A) :
  heapq.nlargest key n l = firstn (Z.to_nat n) (heapq.sorted_reverse key l).
Proof.
  unfold heapq.nlargest. destruct (Z.leb_spec n 0) as [Hn|Hn]; [|reflexivity].
  replace (Z.to_nat n) with 0%nat by lia. reflexivity.
Qed.
End NlargestFacts.

Section Ranking.
Variable p : list float.
Let key (i : nat) : float := nth i p 0%float.

Lemma insert_desc_sorted (x : nat) (l : list nat) :
  Forall (fun j => x < j) l ->
  Forall (fun j => is_number (key j) = true) l ->
  StronglySorted (before p) l ->
  StronglySorted (before p) (heapq.insert_desc key x l).
Proof.
  induction l as [|y l IH]; intros Hlt Hnum Hs; simpl.
  - repeat constructor.
  - inversion Hlt as [|? ? Hxy Hlt']; subst.
    inversion Hnum as [|? ? Hy Hnum']; subst.
    apply StronglySorted_inv in Hs as [Hs Hall].
    destruct (PrimFloat.ltb (key x) (key y)) eqn:E.
    + constructor; [now apply IH|].
      apply (Permutation_Forall (Permutation_sym (insert_desc_perm key x l))).
      constructor; [now left|assumption].
    + constructor; [now constructor|].
      constructor; [now right|].
      rewrite List.Forall_forall in Hall, Hlt' |- *. intros z Hz.
      right. split; [|now apply Hlt'].
      destruct (PrimFloat.ltb (key x) (key z)) eqn:Exz; [|exact Exz].
      destruct (ltb_cotrans _ (key y) _ Hy Exz) as [F|F]; [congruence|].
      destruct (Hall z Hz) as [G|[G _]]; unfold key in *.
      * apply ltb_asym in G. congruence.
      * congruence.
Qed.

Lemma sorted_reverse_sorted (l : list nat) :
  StronglySorted lt l ->
  Forall (fun j => is_number (key j) = true) l ->
  StronglySorted (before p) (heapq.sorted_reverse key l).
Proof.
  induction l as [|x l IH]; intros Hs Hnum; simpl; [constructor|].
  apply StronglySorted_inv in Hs as [Hs Hall].
  inversion Hnum; subst.
  apply insert_desc_sorted; auto.
  - apply (Permutation_Forall (Permutation_sym (sorted_reverse_perm key l))).
    assumption.
  - apply (Permutation_Forall (Permutation_sym (sorted_reverse_perm key l))).
    assumption.
Qed.
End Ranking.

Lemma seq_sorted (s n : nat) : StronglySorted lt (seq s n).
Proof.
  revert s. induction n as [|n IH]; intros s; simpl; constructor; auto.
  apply List.Forall_forall. intros j Hj. apply in_seq in Hj. lia.
Qed.

Lemma list_by_index {A} (d : A) (l : list A) :
  l = map (fun i => nth i l d) (seq 0 (length l)).
Proof.
  apply (nth_ext _ _ d (nth (length l) l d)).
  - now rewrite length_map, length_seq.
  - intros i Hi. rewrite (map_nth (fun i => nth i l d)).
    rewrite seq_nth by assumption. reflexivity.
Qed.

(** The pairs that [nlargest] selects from [zip(probs, vocab)], by the
    index they come from. *)
Lemma nlargest_combine (n : Z) (p : list float) (v : list string) :
  length p = length v ->
  Forall (fun x => is_number x = true) p ->
  exists chosen : list nat,
    ranked_top n p chosen
    /\ heapq.nlargest fst n (combine p v)
       = map (fun i => (nth i p 0%float, nth i v "")) chosen.
Proof.
  intros Hlen Hnum.
  set (key := fun i : nat => nth i p 0%float).
  set (order := heapq.sorted_reverse key (seq 0 (length p))).
  exists (firstn (Z.to_nat n) order). split.
  - exists order. split; [apply sorted_reverse_perm|]. split; [|reflexivity].
    apply sorted_reverse_sorted; [apply seq_sorted|].
    apply List.Forall_forall. intros j Hj. apply in_seq in Hj.
    rewrite List.Forall_forall in Hnum. apply Hnum, nth_In. lia.
  - rewrite nlargest_firstn.
    assert (Hl : length (combine p v) = length p)
      by (rewrite length_combine; lia).
    rewrite (list_by_index (0%float, "") (combine p v)) at 1.
    rewrite Hl, sorted_reverse_map, firstn_map.
    rewrite (sorted_reverse_ext _ key)
      by (intros i; now rewrite combine_nth).
    fold order. apply map_ext. intros i. now apply combine_nth.
Qed.

Lemma firstn_In_inv {A} (n : nat) (l : list A) (y : A) :
  In y (firstn n l) -> In y l.
Proof.
  revert n. induction l as [|x l IH]; intros [|n]; simpl; try tauto.
  intros [E|Hy]; [now left|right; eauto].
Qed.

Lemma firstn_StronglySorted {A} (R : A -> A -> Prop) (n : nat) (l : list A) :
  StronglySorted R l -> StronglySorted R (firstn n l).
Proof.
  revert n. induction l as [|x l IH]; intros [|n] Hs; simpl; try constructor.
  - apply IH. now apply StronglySorted_inv in Hs.
  - apply StronglySorted_inv in Hs as [_ Hall].
    rewrite List.Forall_forall in Hall |- *.
    intros y Hy. apply Hall. eapply firstn_In_inv. exact Hy.
Qed.

Lemma ranked_top_sorted (n : Z) (p : list float) (chosen : list nat) :
  ranked_top n p chosen ->
  StronglySorted (before p) chosen
  /\ (Z.of_nat (length chosen) <= Z.max 0 n)%Z
  /\ Forall (fun i => i < length p) chosen.
Proof.
  intros (order & Hperm & Hs & ->). split; [now apply firstn_StronglySorted|].
  split.
  - pose proof (firstn_le_length (Z.to_nat n) order). lia.
  - apply List.Forall_forall. intros i Hi. apply firstn_In_inv in Hi.
    apply (Permutation_in _ Hperm), in_seq in Hi. lia.
Qed.

(** * The softmax formatter and [create_continuations] *)

(** A tie: of the two words with probability 0.4 the earlier one of the
    vocabulary is returned first, and a count that is not positive
    gives nothing. *)
Example create_continuations_tie :
  NextTokenPrediction.create_continuations
    (NextTokenPrediction.mk 2 (Some ["a"; "b"; "c"]) None)
    [0.4; 0.2; 0.4]%float
  = inr [NextTokenPrediction.mkContinuation "a" 40%float;
         NextTokenPrediction.mkContinuation "c" 40%float]
  /\ NextTokenPrediction.create_continuations
       (NextTokenPrediction.mk (-1) (Some ["a"; "b"; "c"]) None)
       [0.4; 0.2; 0.4]%float
     = inr [].
Proof. split; vm_compute; reflexivity. Qed.

(** C1. For a probability vector [p] of numbers and a vocabulary [v] of
    the same length, [assign_words_to_probs] and [create_continuations]
    return the continuations of the first [N] indices in the ranking
    "larger probability first, on a tie the earlier vocabulary position
    first": at most [N] of them, each with the token of its index and the
    probability of its index multiplied by 100. With vocabulary a, b, c,
    probabilities 0.1, 0.7, 0.2 and [N = 2] the result is b with 70.0, then
    c with 20.0. *)
Theorem assign_words_to_probs_top_n
    (f : SoftmaxFormatter.t) (c : NextTokenPrediction.t)
    (p : list float) (v : list string) :
  length p = length v ->
  Forall (fun x => is_number x = true) p ->
  NextTokenPrediction.word_vocab c = Some v ->
  (exists chosen : list nat,
      ranked_top (SoftmaxFormatter.n_largest_tokens_to_return f) p chosen
      /\ StronglySorted (before p) chosen
      /\ (Z.of_nat (length chosen)
          <= Z.max 0 (SoftmaxFormatter.n_largest_tokens_to_return f))%Z
      /\ SoftmaxFormatter.assign_words_to_probs f p v
         = inr (map (fun i =>
                       SoftmaxFormatter.mkContinuation
                         (SoftmaxFormatter.long_tokens f) (nth i v "")
                         [PrimFloat.mul (nth i p 0%float) 100%float])
                    chosen))
  /\ (exists chosen : list nat,
      ranked_top (NextTokenPrediction.n_largest_tokens_to_return c) p chosen
      /\ StronglySorted (before p) chosen
      /\ (Z.of_nat (length chosen)
          <= Z.max 0 (NextTokenPrediction.n_largest_tokens_to_return c))%Z
      /\ NextTokenPrediction.create_continuations c p
         = inr (map (fun i =>
                       NextTokenPrediction.mkContinuation (nth i v "")
                         (PrimFloat.mul (nth i p 0%float) 100%float))
                    chosen))
  /\ (forall name changed possibilities url long,
        SoftmaxFormatter.assign_words_to_probs
          (SoftmaxFormatter.mk name changed 2 possibilities url long)
          [0.1; 0.7; 0.2]%float ["a"; "b"; "c"]
        = inr [SoftmaxFormatter.mkContinuation long "b" [70%float];
               SoftmaxFormatter.mkContinuation long "c" [20%float]])
  /\ (forall context,
        NextTokenPrediction.create_continuations
          (NextTokenPrediction.mk 2 (Some ["a"; "b"; "c"]) context)
          [0.1; 0.7; 0.2]%float
        = inr [NextTokenPrediction.mkContinuation "b" 70%float;
               NextTokenPrediction.mkContinuation "c" 20%float]).
Proof.
  intros Hlen Hnum Hv. split; [|split; [|split]].
  - destruct (nlargest_combine (SoftmaxFormatter.n_largest_tokens_to_return f)
                p v Hlen Hnum) as (chosen & Htop & E).
    destruct (ranked_top_sorted _ _ _ Htop) as (Hs & Hn & _).
    exists chosen. split; [assumption|]. split; [assumption|].
    split; [assumption|].
    unfold SoftmaxFormatter.assign_words_to_probs, ret.
    rewrite E, map_map. reflexivity.
  - destruct (nlargest_combine
                (NextTokenPrediction.n_largest_tokens_to_return c)
                p v Hlen Hnum) as (chosen & Htop & E).
    destruct (ranked_top_sorted _ _ _ Htop) as (Hs & Hn & _).
    exists chosen. split; [assumption|]. split; [assumption|].
    split; [assumption|].
    unfold NextTokenPrediction.create_continuations, ret.
    rewrite Hv, E, map_map. reflexivity.
  - intros. vm_compute. reflexivity.
  - intros. vm_compute. reflexivity.
Qed.

Lemma assign_words_to_probs_top_n_witness :
  exists chosen : list nat,
    ranked_top 2 example_probs chosen
    /\ StronglySorted (before example_probs) chosen
    /\ (Z.of_nat (length chosen) <= Z.max 0 2)%Z
    /\ SoftmaxFormatter.assign_words_to_probs example_formatter
         example_probs example_vocab
       = inr (map (fun i =>
                     SoftmaxFormatter.mkContinuation false
                       (nth i example_vocab "")
                       [PrimFloat.mul (nth i example_probs 0%float) 100%float])
                  chosen).
Proof.
  refine (proj1 (assign_words_to_probs_top_n example_formatter
                   example_component example_probs example_vocab _ _ _)).
  - reflexivity.
  - repeat constructor.
  - reflexivity.
Defined.

(** C2, as stated: with three probabilities and two words the call does
    not raise; it returns a result computed from the first two
    probabilities only. *)
Lemma assign_words_to_probs_mismatch_returns :
  length example_probs <> length ["a"; "b"]
  /\ SoftmaxFormatter.assign_words_to_probs example_formatter
       example_probs ["a"; "b"]
     = inr [SoftmaxFormatter.mkContinuation false "b" [70%float];
            SoftmaxFormatter.mkContinuation false "a" [10%float]]
  /\ SoftmaxFormatter.assign_words_to_probs example_formatter
       example_probs ["a"; "b"]
     <> inl (Raise "DimensionMismatch").
Proof.
  split; [discriminate|]. split; [vm_compute; reflexivity|].
  vm_compute. discriminate.
Qed.

Lemma combine_shorter {A B} (l : list A) (l' : list B) :
  combine (firstn (Nat.min (length l) (length l')) l)
          (firstn (Nat.min (length l) (length l')) l')
  = combine l l'.
Proof.
  revert l'. induction l as [|x l IH]; intros [|y l']; simpl; try reflexivity.
  now rewrite IH.
Qed.

(** C2, amended. [assign_words_to_probs] never raises: whatever the
    lengths, it answers as it does on the two arguments cut to the
    length of the shorter one, with at most that many continuations. *)
Theorem assign_words_to_probs_truncates
    (f : SoftmaxFormatter.t) (p : list float) (v : list string) :
  let k := Nat.min (length p) (length v) in
  SoftmaxFormatter.assign_words_to_probs f p v
  = SoftmaxFormatter.assign_words_to_probs f (firstn k p) (firstn k v)
  /\ exists r : list SoftmaxFormatter.Continuation,
       SoftmaxFormatter.assign_words_to_probs f p v = inr r
       /\ length r <= k.
Proof.
  intros k. unfold SoftmaxFormatter.assign_words_to_probs, ret. split.
  - subst k. now rewrite combine_shorter.
  - eexists. split; [reflexivity|].
    rewrite length_map, nlargest_firstn, length_firstn.
    rewrite (Permutation_length (sorted_reverse_perm fst _)), length_combine.
    subst k. lia.
Qed.

(** C3, as stated: an element that is marked changed is no longer
    marked after [format()]. *)
Lemma format_clears_changed :
  SoftmaxFormatter.changed dirty_formatter = true
  /\ SoftmaxFormatter.changed (snd (SoftmaxFormatter.format dirty_formatter))
     = false.
Proof. split; reflexivity. Qed.

(** C3, amended. [format()] itself resets the flag: after it [changed]
    is false whatever it was before; the payload and the other
    attributes stay, and the payload is what the formatted context
    carries. *)
Theorem format_resets_changed (f : SoftmaxFormatter.t) :
  let '(formatted, f') := SoftmaxFormatter.format f in
  SoftmaxFormatter.changed f' = false
  /\ SoftmaxFormatter.possibilities f' = SoftmaxFormatter.possibilities f
  /\ f' = SoftmaxFormatter.mk (SoftmaxFormatter.name f) false
            (SoftmaxFormatter.n_largest_tokens_to_return f)
            (SoftmaxFormatter._possibilities f)
            (SoftmaxFormatter.endpoint_url f) (SoftmaxFormatter.long_tokens f)
  /\ formatted
     = SoftmaxFormatter.mkFormattedContext (SoftmaxFormatter.name f) "softmax"
         (SoftmaxFormatter.possibilities f) (SoftmaxFormatter.endpoint_url f).
Proof. unfold SoftmaxFormatter.format. simpl. repeat split. Qed.

(** C4, as stated: assigning to a clean element the payload it already
    holds marks it changed. *)
Lemma setter_marks_equal_payload :
  SoftmaxFormatter.changed example_formatter = false
  /\ SoftmaxFormatter.possibilities example_formatter = []
  /\ SoftmaxFormatter.changed
       (SoftmaxFormatter.possibilities_setter example_formatter []) = true.
Proof. repeat split. Qed.

(** C4, amended. Assigning a payload through the setter always marks the
    element changed, whether or not the payload differs from the one it
    held, and stores the payload. *)
Theorem possibilities_setter_marks_changed
    (f : SoftmaxFormatter.t) (value : list SoftmaxFormatter.Continuation) :
  SoftmaxFormatter.changed (SoftmaxFormatter.possibilities_setter f value)
  = true
  /\ SoftmaxFormatter.possibilities
       (SoftmaxFormatter.possibilities_setter f value) = value.
Proof. split; reflexivity. Qed.

(** * The next-token prediction component *)

(** The start of [app.py], followed by the initialization of the
    context: the component then serves [fetch]. *)
Example fetch_after_startup :
  let started :=
    snd (@NextTokenPrediction.initialize_vocab unit example_subclass
           (fresh_component, tt)) in
  fst (@NextTokenPrediction.fetch unit example_subclass
         (NextTokenPrediction.initialize_context (fst started) "hi",
          snd started))
  = inr (NextTokenPrediction.mkResponse "success" "hi"
           [NextTokenPrediction.mkContinuation "b" 70%float;
            NextTokenPrediction.mkContinuation "c" 20%float]).
Proof. vm_compute. reflexivity. Qed.

(** Unfolding the sequencing of methods. *)
Ltac run_methods :=
  unfold NextTokenPrediction.fetch, NextTokenPrediction.select, mbind, mret,
    NextTokenPrediction.read_context, NextTokenPrediction.write_context,
    NextTokenPrediction.get_context, ret, raise;
  cbv beta iota; cbn [fst snd].





(** C6, as stated: before [initialize_vocab], [fetch] raises [TypeError]
    with a subclass that goes through [create_continuations] and succeeds
    with one that does not; before [initialize_context], [fetch] and
    [select] raise [AttributeError]. None of these is the error that the
    claim names. *)
Lemma uninitialized_requests_raise_builtin_errors :
  NextTokenPrediction.word_vocab component_without_vocab = None
  /\ fst (@NextTokenPrediction.fetch unit example_subclass
            (component_without_vocab, tt))
     = inl TypeError
  /\ fst (@NextTokenPrediction.fetch unit constant_subclass
            (component_without_vocab, tt))
     = inr (NextTokenPrediction.mkResponse "success" "hi"
              [NextTokenPrediction.mkContinuation "b" 70%float])
  /\ NextTokenPrediction._context fresh_component = None
  /\ fst (@NextTokenPrediction.fetch unit example_subclass
            (fresh_component, tt))
     = inl AttributeError
  /\ fst (@NextTokenPrediction.select unit example_subclass
            (select_request "b") (fresh_component, tt))
     = inl AttributeError
  /\ TypeError <> Raise "UninitializedVocabulary"
  /\ AttributeError <> Raise "UninitializedContext".
Proof. repeat split; try reflexivity; discriminate. Qed.

(** C6, amended. While the attribute [_context] does not exist, [fetch]
    and [select] raise [AttributeError] and leave the component as it
    was, no hook being called. The vocabulary is not checked by either:
    with a context (shown as it is by [format_context]), [fetch] answers
    what [get_next_token_predictions] answers, and it is
    [create_continuations] that raises [TypeError] while [word_vocab] is
    [None]. *)
Theorem uninitialized_context_raises_attribute_error {S}
    (H : NextTokenPrediction.Subclass S)
    (self : NextTokenPrediction.object S) (data : gmap string string) :
  NextTokenPrediction._context (fst self) = None ->
  NextTokenPrediction.fetch self = (inl AttributeError, self)
  /\ NextTokenPrediction.select data self = (inl AttributeError, self)
  /\ (forall (other : NextTokenPrediction.t) (probs : list float),
        NextTokenPrediction.word_vocab other = None ->
        NextTokenPrediction.create_continuations other probs = inl TypeError)
  /\ (forall (other : NextTokenPrediction.object S) (c : string),
        NextTokenPrediction._context (fst other) = Some c ->
        NextTokenPrediction.format_context c other = (inr c, other) ->
        NextTokenPrediction.fetch other
        = (let* continuations :=
             fst (NextTokenPrediction.get_next_token_predictions c other) in
           ret (NextTokenPrediction.mkResponse "success" c continuations),
           snd (NextTokenPrediction.get_next_token_predictions c other))).
Proof.
  intros Hc. split; [|split; [|split]].
  - run_methods. now rewrite Hc.
  - run_methods. now rewrite Hc.
  - intros other probs Hv. unfold NextTokenPrediction.create_continuations.
    now rewrite Hv.
  - intros other c Ho Hf. run_methods. rewrite Ho, Hf. simpl. rewrite Ho.
    destruct (NextTokenPrediction.get_next_token_predictions c other)
      as [[e|continuations] other']; reflexivity.
Qed.

Lemma uninitialized_context_raises_attribute_error_witness :
  @NextTokenPrediction.fetch unit example_subclass (fresh_component, tt)
  = (inl AttributeError, (fresh_component, tt))
  /\ @NextTokenPrediction.select unit example_subclass (select_request "b")
       (fresh_component, tt)
     = (inl AttributeError, (fresh_component, tt)).
Proof.
  pose proof (uninitialized_context_raises_attribute_error example_subclass
                (fresh_component, tt) (select_request "b") eq_refl) as W.
  exact (conj (proj1 W) (proj1 (proj2 W))).
Defined.




(** * The metrics mixin *)

Section MetricsFacts.
Import MetricsMixin.
Context {Tensor : Type} (self : MetricsMixin.t Tensor).

Lemma foldM_app {A B} (f : B -> A -> result B) (acc : B) (l1 l2 : list A) :
  foldM f acc (l1 ++ l2) = (let* acc' := foldM f acc l1 in foldM f acc' l2).
Proof.
  revert acc. induction l1 as [|a l1 IH]; intros acc; simpl; [reflexivity|].
  destruct (f acc a); simpl; [reflexivity|apply IH].
Qed.

(** A round of the inner loop for a name that is not selected. *)
Lemma metric_step_skipped (generated_text label_text : string)
    (labels_encoded generated_encoded : Tensor) (acc : bars) (name : string)
    (acc' : bars) :
  is_selected self name = false ->
  metric_step self generated_text label_text labels_encoded
    generated_encoded acc name = inr acc' ->
  acc' = acc.
Proof.
  unfold is_selected, metric_step.
  destruct (_select_metrics_elements self !! name) as [checkbox|];
    [|discriminate].
  intros ->. simpl. now intros [= <-].
Qed.

(** A round of the inner loop for a selected name. *)
Lemma metric_step_selected (generated_text label_text : string)
    (labels_encoded generated_encoded : Tensor) (acc : bars) (name : string) :
  is_selected self name = true ->
  metric_step self generated_text label_text labels_encoded
    generated_encoded acc name
  = (let* calculated :=
       calculate self name generated_text label_text labels_encoded
         generated_encoded in
     let* annotation :=
       pystr.format (format (fst calculated)) (snd calculated) in
     ret (mkBars (bar_names acc ++ [name])
            (bar_annotations acc ++ [annotation])
            (bar_heights acc
             ++ [bar_height (fst calculated) (snd calculated)]))).
Proof.
  unfold is_selected, metric_step.
  destruct (_select_metrics_elements self !! name) as [checkbox|];
    [|discriminate].
  intros ->. simpl.
  destruct (calculate self name generated_text label_text labels_encoded
              generated_encoded) as [e|[d r]]; reflexivity.
Qed.

Lemma metric_step_bars (generated_text label_text : string)
    (labels_encoded generated_encoded : Tensor) (acc : bars) (name : string)
    (acc' : bars) :
  metric_step self generated_text label_text labels_encoded
    generated_encoded acc name = inr acc' ->
  bar_names acc' = bar_names acc ++ List.filter (is_selected self) [name]
  /\ length (bar_heights acc')
     = length (bar_heights acc)
       + length (List.filter (is_selected self) [name])
  /\ length (bar_annotations acc')
     = length (bar_annotations acc)
       + length (List.filter (is_selected self) [name]).
Proof.
  intros Hstep. simpl. destruct (is_selected self name) eqn:Hsel.
  - rewrite metric_step_selected in Hstep by assumption.
    destruct (calculate self name generated_text label_text labels_encoded
                generated_encoded) as [e|calculated]; [discriminate|].
    simpl in Hstep.
    destruct (pystr.format (format (fst calculated)) (snd calculated));
      [discriminate|].
    injection Hstep as <-. simpl. rewrite !length_app. simpl. auto.
  - apply metric_step_skipped in Hstep; [subst acc'|assumption].
    simpl. rewrite app_nil_r. repeat split; lia.
Qed.

Lemma inner_loop_bars (generated_text label_text : string)
    (labels_encoded generated_encoded : Tensor) (names : list string)
    (acc b : bars) :
  foldM (metric_step self generated_text label_text labels_encoded
           generated_encoded) acc names = inr b ->
  bar_names b = bar_names acc ++ List.filter (is_selected self) names
  /\ length (bar_heights b)
     = length (bar_heights acc)
       + length (List.filter (is_selected self) names)
  /\ length (bar_annotations b)
     = length (bar_annotations acc)
       + length (List.filter (is_selected self) names).
Proof.
  revert acc. induction names as [|name names IH]; intros acc Hloop.
  - injection Hloop as <-. simpl. rewrite app_nil_r. repeat split; lia.
  - simpl in Hloop.
    destruct (metric_step self generated_text label_text labels_encoded
                generated_encoded acc name) as [e|acc'] eqn:Hstep;
      [discriminate|].
    apply metric_step_bars in Hstep as (Hn & Hh & Ha).
    apply IH in Hloop as (Hn' & Hh' & Ha').
    change (name :: names) with ([name] ++ names).
    rewrite List.filter_app, length_app, Hn', Hh', Ha', Hn, Hh, Ha, app_assoc.
    repeat split; lia.
Qed.

(** A round of the outer loop adds one piece, whatever was assembled
    before. *)
Lemma piece_step_acc (label_text : string) (pieces : list PieceInfo)
    (candidate : string * Tensor * Tensor) :
  piece_step self label_text pieces candidate
  = (let* new := piece_step self label_text [] candidate in
     ret (pieces ++ new)).
Proof.
  destruct candidate as [[generated_text labels_encoded] generated_encoded].
  unfold piece_step.
  destruct (foldM _ _ _); reflexivity.
Qed.

Lemma piece_step_piece (label_text : string)
    (candidate : string * Tensor * Tensor) (new : list PieceInfo) :
  piece_step self label_text [] candidate = inr new ->
  exists piece, new = [piece] /\ piece_of self candidate piece.
Proof.
  destruct candidate as [[generated_text labels_encoded] generated_encoded].
  unfold piece_step.
  destruct (foldM _ _ _) as [e|b] eqn:Hloop; [discriminate|].
  intros [= <-]. eexists. split; [reflexivity|].
  apply inner_loop_bars in Hloop as (Hn & Hh & Ha).
  unfold piece_of, selected_names. simpl in *. rewrite Hn. auto.
Qed.

Lemma outer_loop_pieces (label_text : string)
    (candidates : list (string * Tensor * Tensor))
    (acc pieces : list PieceInfo) :
  foldM (piece_step self label_text) acc candidates = inr pieces ->
  exists new, pieces = acc ++ new
              /\ Forall2 (piece_of self) candidates new.
Proof.
  revert acc. induction candidates as [|c candidates IH]; intros acc Hloop.
  - injection Hloop as <-. exists []. split; [now rewrite app_nil_r|].
    constructor.
  - simpl in Hloop. rewrite piece_step_acc in Hloop.
    destruct (piece_step self label_text [] c) as [e|new] eqn:Hstep;
      [discriminate|].
    simpl in Hloop.
    apply piece_step_piece in Hstep as (piece & -> & Hpiece).
    apply IH in Hloop as (rest & -> & Hrest).
    exists (piece :: rest). split; [now rewrite <- app_assoc|].
    now constructor.
Qed.

(** The outer loop stops at the first candidate whose round raises. *)
Lemma outer_loop_aborts (label_text : string)
    (pre post : list (string * Tensor * Tensor))
    (c : string * Tensor * Tensor) (e : pyexn) (acc : list PieceInfo) :
  Forall (fun c' => exists new, piece_step self label_text [] c' = inr new)
    pre ->
  piece_step self label_text [] c = inl e ->
  foldM (piece_step self label_text) acc (pre ++ c :: post) = inl e.
Proof.
  intros Hpre Hc. revert acc.
  induction Hpre as [|c' pre [new Hnew] _ IH]; intros acc; simpl.
  - rewrite piece_step_acc, Hc. reflexivity.
  - rewrite piece_step_acc, Hnew. simpl. apply IH.
Qed.

(** The inner loop stops at the first selected metric that raises. *)
Lemma inner_loop_aborts (generated_text label_text : string)
    (labels_encoded generated_encoded : Tensor)
    (earlier later : list string) (name : string) (e : pyexn) (b : bars) :
  foldM (metric_step self generated_text label_text labels_encoded
           generated_encoded) (mkBars [] [] []) earlier = inr b ->
  is_selected self name = true ->
  calculate self name generated_text label_text labels_encoded
    generated_encoded = inl e ->
  foldM (metric_step self generated_text label_text labels_encoded
           generated_encoded) (mkBars [] [] []) (earlier ++ name :: later)
  = inl e.
Proof.
  intros Hearlier Hsel Hcalc.
  rewrite foldM_app, Hearlier. simpl.
  rewrite metric_step_selected, Hcalc by assumption. reflexivity.
Qed.
End MetricsFacts.

(** C9. Every piece that [_compute_n_display_metrics_for_element] stores
    in the element has the text of its candidate as title and, as bar
    names, exactly the selected metrics in the order of the ordering of
    [create_ordering]; a metric that is not selected is in no piece; and
    the heights, the annotations and the names of a piece are equally
    many. *)
Theorem pieces_show_selected_metrics {Tensor} (self : MetricsMixin.t Tensor)
    (generated_text_list : list string) (label_text : string)
    (probs_encoded_list generated_encoded_list : list Tensor)
    (element element' : MetricsMixin.BarChartElement) :
  MetricsMixin._compute_n_display_metrics_for_element self
    generated_text_list label_text probs_encoded_list generated_encoded_list
    element = (inr tt, element') ->
  Forall2 (MetricsMixin.piece_of self)
    (MetricsMixin.zip3 generated_text_list probs_encoded_list
       generated_encoded_list)
    (MetricsMixin.piece_infos element')
  /\ Forall (fun piece =>
               length (MetricsMixin.barHeights piece)
               = length (MetricsMixin.barNames piece)
               /\ length (MetricsMixin.barAnnotations piece)
                  = length (MetricsMixin.barNames piece)
               /\ (forall name,
                     MetricsMixin.is_selected self name = false ->
                     ~ In name (MetricsMixin.barNames piece))
               /\ (MetricsMixin.constructed self ->
                   MetricsMixin.barNames piece
                   = List.filter (MetricsMixin.is_selected self)
                       (MetricsMixin.create_ordering
                          (MetricsMixin._metrics_on_generated_text self)
                          (MetricsMixin._metrics_on_probs self))))
      (MetricsMixin.piece_infos element').
Proof.
  unfold MetricsMixin._compute_n_display_metrics_for_element.
  destruct (MetricsMixin.foldM _ _ _) as [e|pieces] eqn:Hloop;
    [discriminate|].
  intros [= <-]. simpl.
  apply outer_loop_pieces in Hloop as (new & -> & Hnew). simpl.
  split; [assumption|].
  induction Hnew as [|c piece cs ps (_ & Hnames & Hh & Ha) _ IH];
    constructor; [|assumption].
  split; [assumption|]. split; [assumption|]. split.
  - intros name Hsel Hin. rewrite Hnames in Hin.
    apply List.filter_In in Hin as [_ Hin]. congruence.
  - intros [Hord _]. now rewrite Hnames, <- Hord.
Qed.

Lemma pieces_show_selected_metrics_witness :
  Forall2 (MetricsMixin.piece_of example_mixin_without_bleu)
    (MetricsMixin.zip3 ["good"; ""] [[]; []] [[]; []])
    [MetricsMixin.mkPieceInfo "good" [100%float] ["0.37"] ["nll"];
     MetricsMixin.mkPieceInfo "" [100%float] ["0.37"] ["nll"]].
Proof.
  exact (proj1 (pieces_show_selected_metrics example_mixin_without_bleu
                  ["good"; ""] "target" [[]; []] [[]; []] empty_chart
                  (MetricsMixin.mkBarChartElement true true
                     [MetricsMixin.mkPieceInfo "good" [100%float] ["0.37"]
                        ["nll"];
                      MetricsMixin.mkPieceInfo "" [100%float] ["0.37"]
                        ["nll"]])
                  eq_refl)).
Defined.

(** C8, as stated: the metric bleu raises for the second of two
    candidates. The call ends with that very exception, which is not a
    [MetricComputationError]; the element does not receive the piece of
    the first candidate, although the first candidate alone yields
    one. *)
Lemma metric_error_discards_all_pieces :
  MetricsMixin._compute_n_display_metrics_for_element example_mixin
    ["good"; ""] "target" [[]; []] [[]; []] empty_chart
  = (inl (Raise "ZeroDivisionError"), empty_chart)
  /\ Raise "ZeroDivisionError" <> Raise "MetricComputationError"
  /\ MetricsMixin.piece_infos empty_chart = []
  /\ MetricsMixin._compute_n_display_metrics_for_element example_mixin
       ["good"] "target" [[]] [[]] empty_chart
     = (inr tt,
        MetricsMixin.mkBarChartElement true true
          [MetricsMixin.mkPieceInfo "good" [37%float; 100%float]
             ["0.37"; "0.37"] ["bleu"; "nll"]]).
Proof.
  split; [vm_compute; reflexivity|]. split; [discriminate|].
  split; [reflexivity|]. vm_compute. reflexivity.
Qed.

(** C8, amended. When the calculation of a selected metric raises for a
    candidate, the rounds before it having returned, the whole call ends
    with that exception as it was raised, without a tag; no piece of any
    candidate is stored and the element stays as it was. *)
Theorem metric_error_aborts {Tensor} (self : MetricsMixin.t Tensor)
    (generated_text_list : list string) (label_text : string)
    (probs_encoded_list generated_encoded_list : list Tensor)
    (element : MetricsMixin.BarChartElement)
    (pre post : list (string * Tensor * Tensor))
    (generated_text : string) (labels_encoded generated_encoded : Tensor)
    (earlier later : list string) (name : string) (b : MetricsMixin.bars)
    (e : pyexn) :
  MetricsMixin.zip3 generated_text_list probs_encoded_list
    generated_encoded_list
  = pre ++ (generated_text, labels_encoded, generated_encoded) :: post ->
  Forall (fun c => exists new,
            MetricsMixin.piece_step self label_text [] c = inr new) pre ->
  MetricsMixin._ordering self = earlier ++ name :: later ->
  MetricsMixin.foldM
    (MetricsMixin.metric_step self generated_text label_text labels_encoded
       generated_encoded) (MetricsMixin.mkBars [] [] []) earlier = inr b ->
  MetricsMixin.is_selected self name = true ->
  MetricsMixin.calculate self name generated_text label_text labels_encoded
    generated_encoded = inl e ->
  MetricsMixin._compute_n_display_metrics_for_element self
    generated_text_list label_text probs_encoded_list generated_encoded_list
    element
  = (inl e, element).
Proof.
  intros Hzip Hpre Hord Hearlier Hsel Hcalc.
  unfold MetricsMixin._compute_n_display_metrics_for_element.
  rewrite Hzip, (outer_loop_aborts self label_text pre post _ e);
    [reflexivity|assumption|].
  unfold MetricsMixin.piece_step. rewrite Hord.
  now rewrite (inner_loop_aborts self _ _ _ _ earlier later name e b).
Qed.

Lemma metric_error_aborts_witness :
  MetricsMixin._compute_n_display_metrics_for_element example_mixin
    ["good"; ""] "target" [[]; []] [[]; []] empty_chart
  = (inl (Raise "ZeroDivisionError"), empty_chart).
Proof.
  refine (metric_error_aborts example_mixin ["good"; ""] "target" [[]; []]
            [[]; []] empty_chart [("good", [], [])] [] "" [] [] [] ["nll"]
            "bleu" (MetricsMixin.mkBars [] [] []) (Raise "ZeroDivisionError")
            _ _ _ _ _ _).
  - reflexivity.
  - constructor; [|constructor]. eexists. vm_compute. reflexivity.
  - reflexivity.
  - reflexivity.
  - reflexivity.
  - reflexivity.
Defined.

(** C10, as stated: for the scalable metric the height of the raw value
    0.37 is 37, not 0.37, and the height of the raw value -0.5 is -50,
    below the interval. *)
Lemma scalable_height_is_not_the_clamped_value :
  MetricsMixin.bar_height (MetricsMixin.mkMetricDescription "{:.2f}" true)
    0.37%float = 37%float
  /\ clamp_0_100 0.37%float = 0.37%float
  /\ PrimFloat.eqb 37%float 0.37%float = false
  /\ MetricsMixin.bar_height (MetricsMixin.mkMetricDescription "{:.2f}" true)
       (-0.5)%float = (-50)%float
  /\ clamp_0_100 (-0.5)%float = 0%float
  /\ PrimFloat.ltb (-50)%float 0%float = true.
Proof. repeat split; vm_compute; reflexivity. Qed.

(** C10, amended. For a selected metric whose calculation returned [r],
    the round of the loop adds the name, the height and the annotation.
    The height of a scalable metric is [min(r * 100, 100)], which is
    never above 100; the height of a metric that is not scalable is 100;
    the annotation is [r] formatted with the format of the metric. A
    metric that is not scalable, with format "{:.2f}" and value 0.37,
    gets the height 100 and the annotation "0.37". *)
Theorem bar_height_and_annotation {Tensor} (self : MetricsMixin.t Tensor)
    (generated_text label_text : string)
    (labels_encoded generated_encoded : Tensor)
    (acc : MetricsMixin.bars) (name : string)
    (d : MetricsMixin.MetricDescription) (r : float) :
  MetricsMixin.is_selected self name = true ->
  MetricsMixin.calculate self name generated_text label_text labels_encoded
    generated_encoded = inr (d, r) ->
  MetricsMixin.metric_step self generated_text label_text labels_encoded
    generated_encoded acc name
  = (let* annotation := pystr.format (MetricsMixin.format d) r in
     ret (MetricsMixin.mkBars
            (MetricsMixin.bar_names acc ++ [name])
            (MetricsMixin.bar_annotations acc ++ [annotation])
            (MetricsMixin.bar_heights acc ++ [MetricsMixin.bar_height d r])))
  /\ (MetricsMixin.scalable d = true ->
      MetricsMixin.bar_height d r
      = MetricsMixin.py_min (PrimFloat.mul r 100%float) 100%float
      /\ PrimFloat.ltb 100%float (MetricsMixin.bar_height d r) = false)
  /\ (MetricsMixin.scalable d = false ->
      MetricsMixin.bar_height d r = 100%float)
  /\ MetricsMixin.bar_height (MetricsMixin.mkMetricDescription "{:.2f}" false)
       0.37%float = 100%float
  /\ pystr.format "{:.2f}" 0.37%float = inr "0.37".
Proof.
  intros Hsel Hcalc. split; [|split; [|split; [|split]]].
  - rewrite metric_step_selected, Hcalc by assumption. reflexivity.
  - intros Hs. unfold MetricsMixin.bar_height, MetricsMixin.py_min.
    rewrite Hs. split; [reflexivity|].
    destruct (PrimFloat.ltb 100%float (PrimFloat.mul r 100%float)) eqn:E;
      [reflexivity|exact E].
  - intros Hs. unfold MetricsMixin.bar_height. now rewrite Hs.
  - reflexivity.
  - vm_compute. reflexivity.
Qed.

Lemma bar_height_and_annotation_witness :
  MetricsMixin.metric_step example_mixin "good" "target" [] []
    (MetricsMixin.mkBars [] [] []) "nll"
  = inr (MetricsMixin.mkBars ["nll"] ["0.37"] [100%float]).
Proof.
  exact (proj1 (bar_height_and_annotation example_mixin "good" "target" [] []
                  (MetricsMixin.mkBars [] [] []) "nll"
                  (MetricsMixin.mkMetricDescription "{:.2f}" false) 0.37%float
                  eq_refl eq_refl)).
Defined.

(** * Further properties of the continuations *)

Lemma firstn_NoDup {A} (n : nat) (l : list A) :
  List.NoDup l -> List.NoDup (firstn n l).
Proof.
  intros Hl. rewrite <- (firstn_skipn n l) in Hl.
  now apply NoDup_app_remove_r in Hl.
Qed.

(** The pairs that [nlargest] selects from [zip(probs, vocab)], whatever
    the lengths and the probabilities: for every count, the first
    positions of one arrangement of the positions that both lists have. *)
Lemma nlargest_combine_any (p : list float) (v : list string) :
  exists order : list nat,
    Permutation order (seq 0 (Nat.min (length p) (length v)))
    /\ forall n : Z,
         heapq.nlargest fst n (combine p v)
         = map (fun i => (nth i p 0%float, nth i v ""))
             (firstn (Z.to_nat n) order).
Proof.
  set (k := Nat.min (length p) (length v)).
  set (l := combine (firstn k p) (firstn k v)).
  assert (Hp : length (firstn k p) = k) by (rewrite length_firstn; lia).
  assert (Hv : length (firstn k v) = k) by (rewrite length_firstn; lia).
  assert (Hl : length l = k) by (unfold l; rewrite length_combine; lia).
  set (key := fun i : nat => fst (nth i l (0%float, ""))).
  exists (heapq.sorted_reverse key (seq 0 k)). split.
  - apply sorted_reverse_perm.
  - intros n. rewrite nlargest_firstn, <- (combine_shorter p v).
    fold k. fold l.
    rewrite (list_by_index (0%float, "") l) at 1.
    rewrite Hl, sorted_reverse_map, firstn_map. fold key.
    apply map_ext_in. intros i Hi.
    apply firstn_In_inv in Hi.
    apply (Permutation_in _ (sorted_reverse_perm key (seq 0 k))), in_seq in Hi.
    unfold l. rewrite combine_nth by congruence.
    rewrite !nth_firstn.
    destruct (Nat.ltb_spec i k); [reflexivity|lia].
Qed.

(** X1. The number of continuations returned is the smallest of the
    count asked for, the number of probabilities and the number of
    words; a count that is not positive gives none. *)
Theorem continuations_length (f : SoftmaxFormatter.t)
    (c : NextTokenPrediction.t) (p : list float) (v : list string) :
  NextTokenPrediction.word_vocab c = Some v ->
  (exists r, SoftmaxFormatter.assign_words_to_probs f p v = inr r
             /\ length r
                = Nat.min
                    (Z.to_nat (SoftmaxFormatter.n_largest_tokens_to_return f))
                    (Nat.min (length p) (length v)))
  /\ (exists r, NextTokenPrediction.create_continuations c p = inr r
                /\ length r
                   = Nat.min
                       (Z.to_nat
                          (NextTokenPrediction.n_largest_tokens_to_return c))
                       (Nat.min (length p) (length v))).
Proof.
  intros Hc. destruct (nlargest_combine_any p v) as (order & Hperm & E).
  pose proof (Permutation_length Hperm) as Hlen. rewrite length_seq in Hlen.
  split; eexists.
  - unfold SoftmaxFormatter.assign_words_to_probs, ret. split; [reflexivity|].
    now rewrite E, !length_map, length_firstn, Hlen.
  - unfold NextTokenPrediction.create_continuations, ret. rewrite Hc.
    split; [reflexivity|].
    now rewrite E, !length_map, length_firstn, Hlen.
Qed.

Lemma continuations_length_witness :
  exists r, NextTokenPrediction.create_continuations generous_component
              tie_probs = inr r
            /\ length r = Nat.min (Z.to_nat 10) (Nat.min 4 4).
Proof.
  exact (proj2 (continuations_length generous_formatter generous_component
                  tie_probs tie_vocab eq_refl)).
Defined.

(** X2. Whatever the probabilities (also NaN) and the lengths, every
    continuation returned is a word of the vocabulary with the
    probability at its own position, multiplied by 100, and no position is
    returned twice. *)
Theorem continuations_from_vocabulary (f : SoftmaxFormatter.t)
    (c : NextTokenPrediction.t) (p : list float) (v : list string) :
  NextTokenPrediction.word_vocab c = Some v ->
  (exists positions,
      formatter_returns f p v positions
      /\ List.NoDup positions
      /\ Forall (fun i => i < length p /\ i < length v) positions)
  /\ (exists positions,
      component_returns c p v positions
      /\ List.NoDup positions
      /\ Forall (fun i => i < length p /\ i < length v) positions).
Proof.
  intros Hc. destruct (nlargest_combine_any p v) as (order & Hperm & E).
  assert (Hfacts : forall n,
             List.NoDup (firstn n order)
             /\ Forall (fun i => i < length p /\ i < length v)
                  (firstn n order)).
  { intros n. split.
    - apply firstn_NoDup.
      apply (Permutation_NoDup (Permutation_sym Hperm)), seq_NoDup.
    - apply List.Forall_forall. intros i Hi. apply firstn_In_inv in Hi.
      apply (Permutation_in _ Hperm), in_seq in Hi. lia. }
  split.
  - exists (firstn (Z.to_nat (SoftmaxFormatter.n_largest_tokens_to_return f))
              order).
    split; [|apply Hfacts].
    unfold formatter_returns, SoftmaxFormatter.assign_words_to_probs, ret.
    now rewrite E, map_map.
  - exists (firstn (Z.to_nat (NextTokenPrediction.n_largest_tokens_to_return c))
              order).
    split; [|apply Hfacts].
    unfold component_returns, NextTokenPrediction.create_continuations, ret.
    now rewrite Hc, E, map_map.
Qed.

Lemma continuations_from_vocabulary_witness :
  exists positions,
    formatter_returns generous_formatter tie_probs tie_vocab positions
    /\ List.NoDup positions
    /\ Forall (fun i => i < 4 /\ i < 4) positions.
Proof.
  exact (proj1 (continuations_from_vocabulary generous_formatter
                  generous_component tie_probs tie_vocab eq_refl)).
Defined.

(** X3. Asked for at least as many continuations as there are words,
    with as many probabilities as words, [create_continuations] returns
    every word of the vocabulary exactly as often as it occurs there. *)
Theorem continuations_cover_vocabulary (c : NextTokenPrediction.t)
    (p : list float) (v : list string) :
  NextTokenPrediction.word_vocab c = Some v ->
  length p = length v ->
  (Z.of_nat (length v) <= NextTokenPrediction.n_largest_tokens_to_return c)%Z ->
  exists r, NextTokenPrediction.create_continuations c p = inr r
            /\ Permutation (map NextTokenPrediction.token r) v.
Proof.
  intros Hc Hlen Hn. destruct (nlargest_combine_any p v) as (order & Hperm & E).
  eexists. unfold NextTokenPrediction.create_continuations, ret. rewrite Hc.
  split; [reflexivity|].
  rewrite E, !map_map. simpl.
  rewrite firstn_all2
    by (apply Permutation_length in Hperm; rewrite length_seq in Hperm; lia).
  replace (Nat.min (length p) (length v)) with (length v) in Hperm by lia.
  apply Permutation_trans with (map (fun i => nth i v "") (seq 0 (length v))).
  - now apply Permutation_map.
  - rewrite <- (list_by_index "" v). reflexivity.
Qed.

Lemma continuations_cover_vocabulary_witness :
  exists r, NextTokenPrediction.create_continuations generous_component
              tie_probs = inr r
            /\ Permutation (map NextTokenPrediction.token r) tie_vocab.
Proof.
  refine (continuations_cover_vocabulary generous_component tie_probs
            tie_vocab eq_refl eq_refl _).
  vm_compute. discriminate.
Defined.

Lemma StronglySorted_app_inv {A} (R : A -> A -> Prop) (l1 l2 : list A) :
  StronglySorted R (l1 ++ l2) ->
  forall a b, In a l1 -> In b l2 -> R a b.
Proof.
  induction l1 as [|x l1 IH]; simpl; intros Hs a b Ha Hb; [contradiction|].
  apply StronglySorted_inv in Hs as [Hs Hall].
  destruct Ha as [<-|Ha]; [|now apply IH].
  rewrite List.Forall_forall in Hall. apply Hall, in_or_app. now right.
Qed.

(** X4. With probabilities that are numbers, as many as words, no word
    that is left out has a strictly larger probability than a word that
    is returned. *)
Theorem continuations_dominate (c : NextTokenPrediction.t)
    (p : list float) (v : list string) :
  NextTokenPrediction.word_vocab c = Some v ->
  length p = length v ->
  Forall (fun x => is_number x = true) p ->
  exists positions,
    component_returns c p v positions
    /\ forall i j, In i positions -> j < length p -> ~ In j positions ->
                   PrimFloat.ltb (nth i p 0%float) (nth j p 0%float) = false.
Proof.
  intros Hc Hlen Hnum.
  destruct (nlargest_combine
              (NextTokenPrediction.n_largest_tokens_to_return c) p v Hlen Hnum)
    as (chosen & (order & Hperm & Hs & ->) & E).
  eexists. split.
  - unfold component_returns, NextTokenPrediction.create_continuations, ret.
    rewrite Hc, E, map_map. reflexivity.
  - intros i j Hi Hj Hout.
    set (n := Z.to_nat (NextTokenPrediction.n_largest_tokens_to_return c)) in *.
    assert (Hrest : In j (skipn n order)).
    { assert (Hall : In j order)
        by (apply (Permutation_in _ (Permutation_sym Hperm)), in_seq; lia).
      rewrite <- (firstn_skipn n order) in Hall.
      apply in_app_or in Hall as [Hall|Hall]; [contradiction|assumption]. }
    rewrite <- (firstn_skipn n order) in Hs.
    destruct (StronglySorted_app_inv _ _ _ Hs i j Hi Hrest) as [G|[G _]].
    + now apply ltb_asym.
    + exact G.
Qed.

Lemma continuations_dominate_witness :
  exists positions,
    component_returns frugal_component tie_probs tie_vocab positions
    /\ forall i j, In i positions -> j < 4 -> ~ In j positions ->
                   PrimFloat.ltb (nth i tie_probs 0%float)
                     (nth j tie_probs 0%float) = false.
Proof.
  refine (continuations_dominate frugal_component tie_probs tie_vocab
            eq_refl eq_refl _).
  repeat constructor.
Defined.

(** X5. A formatter and a component with the same count and the same
    vocabulary return the same words with the same probabilities, in the
    same order; the formatter wraps each probability in a list and adds
    its flag [long_tokens]. *)
Theorem formatter_and_component_agree (f : SoftmaxFormatter.t)
    (c : NextTokenPrediction.t) (p : list float) (v : list string) :
  NextTokenPrediction.word_vocab c = Some v ->
  SoftmaxFormatter.n_largest_tokens_to_return f
  = NextTokenPrediction.n_largest_tokens_to_return c ->
  exists r,
    NextTokenPrediction.create_continuations c p = inr r
    /\ SoftmaxFormatter.assign_words_to_probs f p v
       = inr (map (fun x =>
                     SoftmaxFormatter.mkContinuation
                       (SoftmaxFormatter.long_tokens f)
                       (NextTokenPrediction.token x)
                       [NextTokenPrediction.prob x]) r).
Proof.
  intros Hc Hn. eexists.
  unfold NextTokenPrediction.create_continuations,
    SoftmaxFormatter.assign_words_to_probs, ret.
  rewrite Hc, Hn, map_map. split; reflexivity.
Qed.

Lemma formatter_and_component_agree_witness :
  exists r,
    NextTokenPrediction.create_continuations generous_component tie_probs
    = inr r
    /\ SoftmaxFormatter.assign_words_to_probs generous_formatter tie_probs
         tie_vocab
       = inr (map (fun x =>
                     SoftmaxFormatter.mkContinuation true
                       (NextTokenPrediction.token x)
                       [NextTokenPrediction.prob x]) r).
Proof.
  exact (formatter_and_component_agree generous_formatter generous_component
           tie_probs tie_vocab eq_refl eq_refl).
Defined.

(** X6. With probabilities that are numbers, asking for fewer
    continuations gives the beginning of what asking for more gives: the
    answer for the count [n] is the first [n] continuations of the answer
    for any count [m] that is not smaller. (With a NaN among the
    probabilities the library does not rank, and this is not so.) *)
Theorem continuations_prefix (n m : Z) (vocab : list string)
    (context : option string) (p : list float) :
  Forall (fun x => is_number x = true) p ->
  (n <= m)%Z ->
  exists r,
    NextTokenPrediction.create_continuations
      (NextTokenPrediction.mk m (Some vocab) context) p = inr r
    /\ NextTokenPrediction.create_continuations
         (NextTokenPrediction.mk n (Some vocab) context) p
       = inr (firstn (Z.to_nat n) r).
Proof.
  intros _ Hnm. eexists.
  unfold NextTokenPrediction.create_continuations, ret. simpl.
  split; [reflexivity|].
  rewrite !nlargest_firstn, <- !firstn_map, firstn_firstn.
  replace (Nat.min (Z.to_nat n) (Z.to_nat m)) with (Z.to_nat n) by lia.
  reflexivity.
Qed.

Lemma continuations_prefix_witness :
  exists r,
    NextTokenPrediction.create_continuations generous_component tie_probs
    = inr r
    /\ NextTokenPrediction.create_continuations frugal_component tie_probs
       = inr (firstn (Z.to_nat 2) r).
Proof.
  refine (continuations_prefix 2 10 tie_vocab (Some "") tie_probs _ _).
  - repeat constructor.
  - vm_compute. discriminate.
Defined.




(** * Further properties of the metrics mixin *)

Section MoreMetricsFacts.
Import MetricsMixin.
Context {Tensor : Type} (self : MetricsMixin.t Tensor).

Lemma get_of_key {V} (name : string) (d : dict V) :
  In name (keys d) -> exists v, get name d = Some v.
Proof.
  induction d as [|[k v] d IH]; simpl; [contradiction|].
  intros [<-|Hin].
  - rewrite String.eqb_refl. eauto.
  - destruct (String.eqb name k); eauto.
Qed.

Lemma get_is_key {V} (name : string) (d : dict V) (v : V) :
  get name d = Some v -> In name (keys d).
Proof.
  induction d as [|[k w] d IH]; simpl; [discriminate|].
  destruct (String.eqb_spec name k) as [->|_]; [now left|].
  intros Hget. right. now apply IH.
Qed.

Lemma prepare_lookup (ordering : list string)
    (elements : gmap string CheckBoxSubElement) (name : string) :
  fold_left (fun elements key => <[key := mkCheckBoxSubElement key true]> elements)
    ordering elements !! name
  = if existsb (String.eqb name) ordering
    then Some (mkCheckBoxSubElement name true)
    else elements !! name.
Proof.
  revert elements. induction ordering as [|key ordering IH]; intros elements;
    simpl; [reflexivity|].
  rewrite IH. destruct (existsb (String.eqb name) ordering).
  - now rewrite orb_true_r.
  - rewrite orb_false_r. destruct (String.eqb_spec name key) as [->|Hne].
    + apply lookup_insert_eq.
    + now apply lookup_insert_ne.
Qed.

(** A generic form of the loop over the candidates. *)
Lemma outer_loop_Forall2 (label_text : string)
    (P : string * Tensor * Tensor -> PieceInfo -> Prop) :
  (forall c new, piece_step self label_text [] c = inr new ->
                 exists piece, new = [piece] /\ P c piece) ->
  forall candidates acc pieces,
    foldM (piece_step self label_text) acc candidates = inr pieces ->
    exists new, pieces = acc ++ new /\ Forall2 P candidates new.
Proof.
  intros Hstep candidates.
  induction candidates as [|c candidates IH]; intros acc pieces Hloop.
  - injection Hloop as <-. exists []. split; [now rewrite app_nil_r|].
    constructor.
  - simpl in Hloop. rewrite piece_step_acc in Hloop.
    destruct (piece_step self label_text [] c) as [e|new] eqn:Hc;
      [discriminate|].
    simpl in Hloop. apply Hstep in Hc as (piece & -> & Hpiece).
    apply IH in Hloop as (rest & -> & Hrest).
    exists (piece :: rest). split; [now rewrite <- app_assoc|].
    now constructor.
Qed.

(** The inner loop computes the bars of the selected names, one after
    the other. *)
Lemma inner_loop_mapM (label_text : string)
    (candidate : string * Tensor * Tensor) (names : list string)
    (acc b : bars) :
  foldM (metric_step self (fst (fst candidate)) label_text
           (snd (fst candidate)) (snd candidate)) acc names = inr b ->
  exists computed,
    mapM (bar_for self label_text candidate)
      (List.filter (is_selected self) names) = inr computed
    /\ bar_heights b = bar_heights acc ++ map fst computed
    /\ bar_annotations b = bar_annotations acc ++ map snd computed.
Proof.
  destruct candidate as [[generated_text labels_encoded] generated_encoded].
  simpl. revert acc.
  induction names as [|name names IH]; intros acc Hloop; simpl in *.
  - injection Hloop as <-. exists []. now rewrite !app_nil_r.
  - destruct (is_selected self name) eqn:Hsel.
    + rewrite metric_step_selected in Hloop by assumption. simpl.
      destruct (calculate self name generated_text label_text labels_encoded
                  generated_encoded) as [e|calculated]; [discriminate|].
      simpl in *.
      destruct (pystr.format (format (fst calculated)) (snd calculated))
        as [e|annotation]; [discriminate|].
      simpl in *. apply IH in Hloop as (computed & -> & Hh & Ha). simpl in *.
      eexists. split; [reflexivity|].
      simpl. now rewrite Hh, Ha, <- !app_assoc.
    + destruct (metric_step self generated_text label_text labels_encoded
                  generated_encoded acc name) as [e|acc'] eqn:Hstep;
        [discriminate|].
      apply metric_step_skipped in Hstep; [subst acc'|assumption].
      now apply IH.
Qed.

Lemma mapM_Forall2 {A B} (f : A -> result B) (l : list A) (bs : list B) :
  mapM f l = inr bs -> Forall2 (fun a b => f a = inr b) l bs.
Proof.
  revert bs. induction l as [|a l IH]; intros bs; simpl.
  - intros [= <-]. constructor.
  - destruct (f a) as [e|b] eqn:Hf; [discriminate|]. simpl.
    destruct (mapM f l) as [e|bs']; [discriminate|]. simpl.
    intros [= <-]. constructor; auto.
Qed.

Lemma combine_fst_snd {A B} (l : list (A * B)) :
  combine (map fst l) (map snd l) = l.
Proof. induction l as [|[a b] l IH]; simpl; congruence. Qed.

Lemma bar_height_at_most_100 (d : MetricDescription) (r : float) :
  PrimFloat.ltb 100%float (bar_height d r) = false.
Proof.
  unfold bar_height, py_min. destruct (scalable d); [|reflexivity].
  destruct (PrimFloat.ltb 100%float (PrimFloat.mul r 100%float)) eqn:E;
    [reflexivity|exact E].
Qed.

Lemma bar_for_height (label_text : string)
    (candidate : string * Tensor * Tensor) (name : string)
    (h : float) (annotation : string) :
  bar_for self label_text candidate name = inr (h, annotation) ->
  PrimFloat.ltb 100%float h = false.
Proof.
  destruct candidate as [[generated_text labels_encoded] generated_encoded].
  unfold bar_for.
  destruct (calculate _ _ _ _ _ _) as [e|calculated]; [discriminate|]. simpl.
  destruct (pystr.format _ _) as [e|a]; [discriminate|]. simpl.
  intros [= <- _]. apply bar_height_at_most_100.
Qed.

(** What a round of the outer loop yields, bar by bar. *)
Lemma piece_step_bars (label_text : string)
    (candidate : string * Tensor * Tensor) (new : list PieceInfo) :
  piece_step self label_text [] candidate = inr new ->
  exists piece,
    new = [piece]
    /\ pieceTitle piece = fst (fst candidate)
    /\ barNames piece = selected_names self
    /\ mapM (bar_for self label_text candidate) (barNames piece)
       = inr (combine (barHeights piece) (barAnnotations piece))
    /\ length (barHeights piece) = length (barAnnotations piece).
Proof.
  intros Hstep.
  destruct (piece_step_piece self label_text candidate new Hstep)
    as (piece & -> & Htitle & Hnames & Hh & Ha).
  exists piece. split; [reflexivity|]. split; [assumption|].
  split; [assumption|]. split; [|congruence].
  destruct candidate as [[generated_text labels_encoded] generated_encoded].
  unfold piece_step in Hstep.
  destruct (foldM _ _ _) as [e|b] eqn:Hloop; [discriminate|].
  injection Hstep as <-. simpl in *.
  apply (inner_loop_mapM label_text
           (generated_text, labels_encoded, generated_encoded)) in Hloop
    as (computed & Hm & -> & ->).
  simpl. rewrite combine_fst_snd. rewrite Hnames. exact Hm.
Qed.
End MoreMetricsFacts.

(** X8. [_prepare_metrics_selection_frontend] gives a checkbox, labelled
    with the name and selected, to exactly the names of the ordering; a
    name that occurs twice has one checkbox. *)
Theorem checkboxes_of_ordering (ordering : list string) (name : string) :
  MetricsMixin._prepare_metrics_selection_frontend ordering !! name
  = if existsb (String.eqb name) ordering
    then Some (MetricsMixin.mkCheckBoxSubElement name true)
    else None.
Proof.
  unfold MetricsMixin._prepare_metrics_selection_frontend.
  rewrite prepare_lookup. now rewrite lookup_empty.
Qed.

Lemma existsb_eqb_In (name : string) (l : list string) :
  existsb (String.eqb name) l = true <-> In name l.
Proof.
  rewrite existsb_exists. split.
  - intros (x & Hx & E). apply String.eqb_eq in E. now subst.
  - intros Hin. exists name. split; [assumption|apply String.eqb_refl].
Qed.

(** X9. A mixin fresh from [__init__] is ordered by [create_ordering],
    the metrics on the generated text first, has a checkbox for every
    name of the ordering, and has every metric selected. *)
Theorem init_selects_every_metric {Tensor}
    (new_bar_chart : bool -> MetricsMixin.BarChartElement)
    (metrics_on_generated_text : MetricsMixin.dict MetricsMixin.GeneratedTextMetric)
    (metrics_on_probs : MetricsMixin.dict (MetricsMixin.ProbsMetric Tensor)) :
  let self :=
    MetricsMixin.__init__ new_bar_chart metrics_on_generated_text
      metrics_on_probs in
  MetricsMixin.constructed self
  /\ MetricsMixin.selected_names self
     = MetricsMixin.keys metrics_on_generated_text
       ++ MetricsMixin.keys metrics_on_probs
  /\ forall name, MetricsMixin.is_selected self name = true
                  <-> In name (MetricsMixin.keys metrics_on_generated_text)
                      \/ In name (MetricsMixin.keys metrics_on_probs).
Proof.
  intros self.
  assert (Hsel : forall name,
             MetricsMixin.is_selected self name
             = existsb (String.eqb name)
                 (MetricsMixin.create_ordering metrics_on_generated_text
                    metrics_on_probs)).
  { intros name. unfold MetricsMixin.is_selected, self, MetricsMixin.__init__.
    simpl. unfold MetricsMixin._prepare_metrics_selection_frontend.
    rewrite prepare_lookup, lookup_empty.
    now destruct (existsb _ _). }
  split; [|split].
  - split; [reflexivity|]. intros name Hin.
    unfold self, MetricsMixin.__init__ in *. simpl in *.
    unfold MetricsMixin._prepare_metrics_selection_frontend.
    rewrite prepare_lookup.
    apply existsb_eqb_In in Hin. rewrite Hin. eauto.
  - unfold MetricsMixin.selected_names.
    change (MetricsMixin._ordering self)
      with (MetricsMixin.create_ordering metrics_on_generated_text
              metrics_on_probs).
    apply forallb_filter_id. apply forallb_forall. intros name Hin.
    rewrite Hsel. now apply existsb_eqb_In.
  - intros name. rewrite Hsel, existsb_eqb_In.
    unfold MetricsMixin.create_ordering. apply in_app_iff.
Qed.

(** X10. For a name of an ordering made by [create_ordering] the metric
    is always found, so that [KeyError] does not come from the lookup: a
    metric on the generated text is used when there is one of that name,
    also when a metric on the probabilities has the same name, and
    otherwise the metric on the probabilities. *)
Theorem calculate_finds_metric {Tensor} (self : MetricsMixin.t Tensor)
    (name generated_text label_text : string)
    (labels_encoded generated_encoded : Tensor) :
  MetricsMixin._ordering self
  = MetricsMixin.create_ordering (MetricsMixin._metrics_on_generated_text self)
      (MetricsMixin._metrics_on_probs self) ->
  In name (MetricsMixin._ordering self) ->
  (exists metric,
      MetricsMixin.get name (MetricsMixin._metrics_on_generated_text self)
      = Some metric
      /\ MetricsMixin.calculate self name generated_text label_text
           labels_encoded generated_encoded
         = (let* r := MetricsMixin.gt_metric_calculation metric
                        generated_text label_text in
            ret (MetricsMixin.gt_description metric, r)))
  \/ (MetricsMixin.get name (MetricsMixin._metrics_on_generated_text self)
      = None
      /\ exists metric,
           MetricsMixin.get name (MetricsMixin._metrics_on_probs self)
           = Some metric
           /\ MetricsMixin.calculate self name generated_text label_text
                labels_encoded generated_encoded
              = (let* r := MetricsMixin.pm_metric_calculation metric
                             labels_encoded generated_encoded in
                 ret (MetricsMixin.pm_description metric, r))).
Proof.
  intros Hord Hin. unfold MetricsMixin.calculate.
  destruct (MetricsMixin.get name (MetricsMixin._metrics_on_generated_text self))
    as [metric|] eqn:Hgt.
  - left. eauto.
  - right. split; [reflexivity|].
    rewrite Hord in Hin. apply in_app_or in Hin as [Hin|Hin].
    + apply get_of_key in Hin as [metric Hm]. congruence.
    + apply get_of_key in Hin as [metric ->]. eauto.
Qed.

Lemma calculate_finds_metric_witness :
  (exists metric,
      MetricsMixin.get "nll" (MetricsMixin._metrics_on_generated_text fresh_mixin)
      = Some metric
      /\ MetricsMixin.calculate fresh_mixin "nll" "good" "target" [] []
         = (let* r := MetricsMixin.gt_metric_calculation metric "good"
                        "target" in
            ret (MetricsMixin.gt_description metric, r)))
  \/ (MetricsMixin.get "nll" (MetricsMixin._metrics_on_generated_text fresh_mixin)
      = None
      /\ exists metric,
           MetricsMixin.get "nll" (MetricsMixin._metrics_on_probs fresh_mixin)
           = Some metric
           /\ MetricsMixin.calculate fresh_mixin "nll" "good" "target" [] []
              = (let* r := MetricsMixin.pm_metric_calculation metric [] [] in
                 ret (MetricsMixin.pm_description metric, r))).
Proof.
  refine (calculate_finds_metric fresh_mixin "nll" "good" "target" [] []
            eq_refl _).
  right. left. reflexivity.
Defined.

Section ComputeFacts.
Import MetricsMixin.
Context {Tensor : Type} (self : MetricsMixin.t Tensor).

Lemma compute_success_inv (generated_text_list : list string)
    (label_text : string) (probs_encoded_list generated_encoded_list : list Tensor)
    (element element' : BarChartElement) :
  _compute_n_display_metrics_for_element self generated_text_list label_text
    probs_encoded_list generated_encoded_list element = (inr tt, element') ->
  exists pieces,
    foldM (piece_step self label_text) []
      (zip3 generated_text_list probs_encoded_list generated_encoded_list)
    = inr pieces
    /\ element' = set_piece_infos element pieces.
Proof.
  unfold _compute_n_display_metrics_for_element.
  destruct (foldM _ _ _) as [e|pieces]; [discriminate|].
  intros [= <-]. eauto.
Qed.

Lemma compute_error_inv (generated_text_list : list string)
    (label_text : string) (probs_encoded_list generated_encoded_list : list Tensor)
    (element element' : BarChartElement) (e : pyexn) :
  _compute_n_display_metrics_for_element self generated_text_list label_text
    probs_encoded_list generated_encoded_list element = (inl e, element') ->
  element' = element.
Proof.
  unfold _compute_n_display_metrics_for_element.
  destruct (foldM _ _ _) as [e'|pieces]; [|discriminate].
  now intros [= _ <-].
Qed.

Lemma zip3_length {X Y W} (xs : list X) (ys : list Y) (ws : list W) :
  length (zip3 xs ys ws)
  = Nat.min (length xs) (Nat.min (length ys) (length ws)).
Proof. unfold zip3. rewrite !length_combine. lia. Qed.

Lemma zip3_titles {Y W} (xs : list string) (ys : list Y) (ws : list W) :
  map (fun c => fst (fst c)) (zip3 xs ys ws)
  = firstn (Nat.min (length ys) (length ws)) xs.
Proof.
  unfold zip3. revert ys ws.
  induction xs as [|x xs IH]; intros ys ws; simpl.
  - now rewrite firstn_nil.
  - destruct ys as [|y ys], ws as [|w ws]; simpl; try reflexivity.
    now rewrite IH.
Qed.

Lemma Forall_fst_combine {A B} (P : A -> Prop) (l : list A) (l' : list B) :
  length l = length l' ->
  Forall (fun b => P (fst b)) (combine l l') -> Forall P l.
Proof.
  revert l'. induction l as [|a l IH]; intros [|b l'] Hlen Hall;
    try discriminate; constructor.
  - now inversion Hall.
  - apply (IH l'); [now injection Hlen|now inversion Hall].
Qed.

(** With every checkbox cleared the inner loop does nothing. *)
Lemma inner_loop_unselected (generated_text label_text : string)
    (labels_encoded generated_encoded : Tensor) (names : list string)
    (acc : bars) :
  (forall name, In name names ->
     exists checkbox, _select_metrics_elements self !! name = Some checkbox
                      /\ selected checkbox = false) ->
  foldM (metric_step self generated_text label_text labels_encoded
           generated_encoded) acc names = inr acc.
Proof.
  induction names as [|name names IH]; intros Hall; simpl; [reflexivity|].
  destruct (Hall name (or_introl eq_refl)) as (checkbox & Hbox & Hsel).
  unfold metric_step at 1. rewrite Hbox, Hsel. simpl.
  apply IH. intros name' Hin. apply Hall. now right.
Qed.
End ComputeFacts.

(** X12. [compute_n_display_metrics_on_predicted] writes to the element
    of the predictions only and [compute_n_display_metrics_on_target] to
    the element of the target only; neither changes the ordering, the
    checkboxes or the metrics, and a call that raises leaves the whole
    mixin as it was. *)
Theorem display_elements_independent {Tensor} (self : MetricsMixin.t Tensor)
    (generated_text_list : list string) (label_text : string)
    (probs_encoded_list generated_encoded_list : list Tensor) :
  let predicted :=
    MetricsMixin.compute_n_display_metrics_on_predicted self
      generated_text_list label_text probs_encoded_list
      generated_encoded_list in
  let target :=
    MetricsMixin.compute_n_display_metrics_on_target self label_text
      probs_encoded_list generated_encoded_list in
  MetricsMixin._display_metrics_on_target_element (snd predicted)
  = MetricsMixin._display_metrics_on_target_element self
  /\ MetricsMixin._display_metrics_on_predicted_element (snd target)
     = MetricsMixin._display_metrics_on_predicted_element self
  /\ MetricsMixin._ordering (snd predicted) = MetricsMixin._ordering self
  /\ MetricsMixin._ordering (snd target) = MetricsMixin._ordering self
  /\ MetricsMixin._select_metrics_elements (snd predicted)
     = MetricsMixin._select_metrics_elements self
  /\ MetricsMixin._select_metrics_elements (snd target)
     = MetricsMixin._select_metrics_elements self
  /\ (forall e, fst predicted = inl e -> snd predicted = self)
  /\ (forall e, fst target = inl e -> snd target = self).
Proof.
  intros predicted target. unfold predicted, target,
    MetricsMixin.compute_n_display_metrics_on_predicted,
    MetricsMixin.compute_n_display_metrics_on_target.
  destruct (MetricsMixin._compute_n_display_metrics_for_element self
              generated_text_list _ _ _ _) as [r1 e1] eqn:H1.
  destruct (MetricsMixin._compute_n_display_metrics_for_element self
              [label_text] _ _ _ _) as [r2 e2] eqn:H2.
  simpl. repeat split.
  - intros e ->. apply compute_error_inv in H1 as ->. now destruct self.
  - intros e ->. apply compute_error_inv in H2 as ->. now destruct self.
Qed.

(** X13. No bar that the call stores is higher than 100, whatever the
    metrics return. *)
Theorem stored_heights_at_most_100 {Tensor} (self : MetricsMixin.t Tensor)
    (generated_text_list : list string) (label_text : string)
    (probs_encoded_list generated_encoded_list : list Tensor)
    (element element' : MetricsMixin.BarChartElement) :
  MetricsMixin._compute_n_display_metrics_for_element self
    generated_text_list label_text probs_encoded_list generated_encoded_list
    element = (inr tt, element') ->
  Forall (fun piece =>
            Forall (fun h => PrimFloat.ltb 100%float h = false)
              (MetricsMixin.barHeights piece))
    (MetricsMixin.piece_infos element').
Proof.
  intros Hok. apply compute_success_inv in Hok as (pieces & Hloop & ->).
  simpl.
  apply (outer_loop_Forall2 self label_text
           (fun _ piece =>
              Forall (fun h => PrimFloat.ltb 100%float h = false)
                (MetricsMixin.barHeights piece))) in Hloop
    as (new & -> & Hnew).
  - simpl. clear -Hnew. induction Hnew; constructor; auto.
  - intros c new Hstep.
    apply piece_step_bars in Hstep as (piece & -> & _ & _ & Hm & Hlen).
    exists piece. split; [reflexivity|].
    apply (Forall_fst_combine _ _ _ Hlen).
    apply mapM_Forall2 in Hm. clear -Hm.
    induction Hm as [|name [h a] names bs Hbar _ IH]; constructor; auto.
    simpl. eapply bar_for_height. exact Hbar.
Qed.

Lemma stored_heights_at_most_100_witness :
  Forall (fun piece =>
            Forall (fun h => PrimFloat.ltb 100%float h = false)
              (MetricsMixin.barHeights piece))
    [MetricsMixin.mkPieceInfo "good" [37%float; 100%float] ["0.37"; "0.37"]
       ["bleu"; "nll"]].
Proof.
  exact (stored_heights_at_most_100 example_mixin ["good"] "target" [[]] [[]]
           empty_chart
           (MetricsMixin.mkBarChartElement true true
              [MetricsMixin.mkPieceInfo "good" [37%float; 100%float]
                 ["0.37"; "0.37"] ["bleu"; "nll"]])
           eq_refl).
Defined.

(** X14. When every checkbox is cleared no metric is computed: the call
    returns, also with metrics that would raise, and stores for every
    candidate a piece with its title and no bars. *)
Theorem cleared_checkboxes_compute_nothing {Tensor}
    (self : MetricsMixin.t Tensor)
    (generated_text_list : list string) (label_text : string)
    (probs_encoded_list generated_encoded_list : list Tensor)
    (element : MetricsMixin.BarChartElement) :
  (forall name, In name (MetricsMixin._ordering self) ->
     exists checkbox,
       MetricsMixin._select_metrics_elements self !! name = Some checkbox
       /\ MetricsMixin.selected checkbox = false) ->
  MetricsMixin._compute_n_display_metrics_for_element self
    generated_text_list label_text probs_encoded_list generated_encoded_list
    element
  = (inr tt,
     MetricsMixin.set_piece_infos element
       (map (fun c => MetricsMixin.mkPieceInfo (fst (fst c)) [] [] [])
          (MetricsMixin.zip3 generated_text_list probs_encoded_list
             generated_encoded_list))).
Proof.
  intros Hall. unfold MetricsMixin._compute_n_display_metrics_for_element.
  generalize (MetricsMixin.zip3 generated_text_list probs_encoded_list
                generated_encoded_list).
  intros candidates.
  assert (Hloop : forall acc,
             MetricsMixin.foldM (MetricsMixin.piece_step self label_text) acc
               candidates
             = inr (acc ++ map (fun c =>
                                  MetricsMixin.mkPieceInfo (fst (fst c))
                                    [] [] []) candidates)).
  { induction candidates as [|[[generated_text labels_encoded]
                                 generated_encoded] candidates IH];
      intros acc; simpl.
    - now rewrite app_nil_r.
    - rewrite (inner_loop_unselected self _ _ _ _ _ _ Hall). simpl.
      rewrite IH, <- app_assoc. reflexivity. }
  now rewrite Hloop.
Qed.

Lemma cleared_checkboxes_compute_nothing_witness :
  MetricsMixin._compute_n_display_metrics_for_element
    example_mixin_without_metrics ["good"; ""] "target" [[]; []] [[]; []]
    empty_chart
  = (inr tt,
     MetricsMixin.set_piece_infos empty_chart
       [MetricsMixin.mkPieceInfo "good" [] [] [];
        MetricsMixin.mkPieceInfo "" [] [] []]).
Proof.
  refine (cleared_checkboxes_compute_nothing example_mixin_without_metrics
            ["good"; ""] "target" [[]; []] [[]; []] empty_chart _).
  intros name [<-|[<-|[]]]; eexists; split; reflexivity.
Defined.

Lemma compute_titles {Tensor} (self : MetricsMixin.t Tensor)
    (generated_text_list : list string) (label_text : string)
    (probs_encoded_list generated_encoded_list : list Tensor)
    (element element' : MetricsMixin.BarChartElement) :
  MetricsMixin._compute_n_display_metrics_for_element self
    generated_text_list label_text probs_encoded_list generated_encoded_list
    element = (inr tt, element') ->
  map MetricsMixin.pieceTitle (MetricsMixin.piece_infos element')
  = firstn (Nat.min (length probs_encoded_list)
              (length generated_encoded_list))
      generated_text_list.
Proof.
  intros Hok. apply compute_success_inv in Hok as (pieces & Hloop & ->).
  simpl. apply outer_loop_pieces in Hloop as (new & -> & Hnew). simpl.
  rewrite <- zip3_titles.
  induction Hnew as [|c piece cs ps (Htitle & _) _ IH]; simpl;
    [reflexivity|].
  now rewrite Htitle, IH.
Qed.

(** X15. The pieces stored are those of the first candidates, as many as
    the shortest of the three sequences has, under their own texts as
    titles: candidates beyond that are dropped without an error. *)
Theorem stored_titles {Tensor} (self : MetricsMixin.t Tensor)
    (generated_text_list : list string) (label_text : string)
    (probs_encoded_list generated_encoded_list : list Tensor)
    (element element' : MetricsMixin.BarChartElement) :
  MetricsMixin._compute_n_display_metrics_for_element self
    generated_text_list label_text probs_encoded_list generated_encoded_list
    element = (inr tt, element') ->
  map MetricsMixin.pieceTitle (MetricsMixin.piece_infos element')
  = firstn (Nat.min (length probs_encoded_list)
              (length generated_encoded_list))
      generated_text_list
  /\ length (MetricsMixin.piece_infos element')
     = Nat.min (length generated_text_list)
         (Nat.min (length probs_encoded_list)
            (length generated_encoded_list)).
Proof.
  intros Hok. pose proof (compute_titles _ _ _ _ _ _ _ Hok) as Ht.
  split; [assumption|].
  rewrite <- (length_map MetricsMixin.pieceTitle), Ht, length_firstn. lia.
Qed.

Lemma stored_titles_witness :
  map MetricsMixin.pieceTitle
    [MetricsMixin.mkPieceInfo "good" [100%float] ["0.37"] ["nll"]]
  = firstn (Nat.min 2 1) ["good"; ""].
Proof.
  exact (proj1 (stored_titles nll_mixin ["good"; ""] "target" [[]; []] [[]]
           empty_chart
           (MetricsMixin.mkBarChartElement true true
              [MetricsMixin.mkPieceInfo "good" [100%float] ["0.37"] ["nll"]])
           eq_refl)).
Defined.

(** X16. In every stored piece the heights and the annotations are
    those of the bar names, position by position: the bar of a name is
    the height and the formatted value of the metric of that name for
    the candidate of the piece. *)
Theorem stored_bars_aligned {Tensor} (self : MetricsMixin.t Tensor)
    (generated_text_list : list string) (label_text : string)
    (probs_encoded_list generated_encoded_list : list Tensor)
    (element element' : MetricsMixin.BarChartElement) :
  MetricsMixin._compute_n_display_metrics_for_element self
    generated_text_list label_text probs_encoded_list generated_encoded_list
    element = (inr tt, element') ->
  Forall2 (fun candidate piece =>
             mapM (MetricsMixin.bar_for self label_text candidate)
               (MetricsMixin.barNames piece)
             = inr (combine (MetricsMixin.barHeights piece)
                      (MetricsMixin.barAnnotations piece))
             /\ length (MetricsMixin.barHeights piece)
                = length (MetricsMixin.barAnnotations piece))
    (MetricsMixin.zip3 generated_text_list probs_encoded_list
       generated_encoded_list)
    (MetricsMixin.piece_infos element').
Proof.
  intros Hok. apply compute_success_inv in Hok as (pieces & Hloop & ->).
  simpl.
  apply (outer_loop_Forall2 self label_text
           (fun candidate piece =>
              mapM
                (MetricsMixin.bar_for self label_text candidate)
                (MetricsMixin.barNames piece)
              = inr (combine (MetricsMixin.barHeights piece)
                       (MetricsMixin.barAnnotations piece))
              /\ length (MetricsMixin.barHeights piece)
                 = length (MetricsMixin.barAnnotations piece))) in Hloop
    as (new & -> & Hnew); [exact Hnew|].
  intros c new Hstep.
  apply piece_step_bars in Hstep as (piece & -> & _ & _ & Hm & Hlen).
  eauto.
Qed.

Lemma stored_bars_aligned_witness :
  Forall2 (fun candidate piece =>
             mapM
               (MetricsMixin.bar_for example_mixin "target" candidate)
               (MetricsMixin.barNames piece)
             = inr (combine (MetricsMixin.barHeights piece)
                      (MetricsMixin.barAnnotations piece))
             /\ length (MetricsMixin.barHeights piece)
                = length (MetricsMixin.barAnnotations piece))
    (MetricsMixin.zip3 ["good"] [[]] [[]])
    [MetricsMixin.mkPieceInfo "good" [37%float; 100%float] ["0.37"; "0.37"]
       ["bleu"; "nll"]].
Proof.
  exact (stored_bars_aligned example_mixin ["good"] "target" [[]] [[]]
           empty_chart
           (MetricsMixin.mkBarChartElement true true
              [MetricsMixin.mkPieceInfo "good" [37%float; 100%float]
                 ["0.37"; "0.37"] ["bleu"; "nll"]])
           eq_refl).
Defined.

(** * The random probabilities of the bar chart example *)

Lemma mapM_length {A B} (f : A -> result B) (l : list A) (bs : list B) :
  mapM f l = inr bs -> length bs = length l.
Proof.
  intros Hm. apply mapM_Forall2, Forall2_length in Hm. congruence.
Qed.

Lemma mapM_error {A B} (f : A -> result B) (l : list A) (e : pyexn) :
  mapM f l = inl e -> exists a, In a l /\ f a = inl e.
Proof.
  induction l as [|a l IH]; simpl; [discriminate|].
  destruct (f a) as [e'|b] eqn:Hf; simpl.
  - intros [= <-]. exists a. auto.
  - destruct (mapM f l) as [e'|bs]; simpl; [|discriminate].
    intros [= <-]. destruct (IH eq_refl) as (a' & Hin & Ha'). eauto.
Qed.

Lemma mapM_total {A B} (f : A -> result B) (l : list A) :
  (forall a, In a l -> exists b, f a = inr b) -> exists bs, mapM f l = inr bs.
Proof.
  induction l as [|a l IH]; intros Hall; simpl; [eauto|].
  destruct (Hall a (or_introl eq_refl)) as [b ->].
  destruct IH as [bs ->]; [intros; apply Hall; now right|].
  simpl. eauto.
Qed.

(** The loop of the assignments keeps the number of the rows and their
    shape, and changes only the rows that it indexes. *)
Lemma assign_rows_inv (pairs : list (Z * float)) :
  forall probs probs',
    BarChartSimple.assign_rows probs pairs = inr probs' ->
    length probs' = length probs
    /\ (Forall singleton_row probs -> Forall singleton_row probs')
    /\ exists hit : list nat,
         length hit = length pairs
         /\ forall q, ~ In q hit -> probs' !! q = probs !! q.
Proof.
  induction pairs as [|[i p] pairs IH]; intros probs probs'; simpl.
  - intros [= <-]. split; [reflexivity|]. split; [auto|]. exists []. auto.
  - destruct (BarChartSimple.py_index (length probs) i) as [e|position];
      simpl; [discriminate|].
    destruct (probs !! position) as [[|x rest]|] eqn:Hrow; try discriminate.
    intros Hloop. apply IH in Hloop as (Hlen & Hshape & hit & Hhit & Hsame).
    rewrite length_insert in Hlen. split; [assumption|]. split.
    + intros Hall. apply Hshape. apply Forall_insert; [assumption|].
      rewrite Forall_lookup in Hall. destruct (Hall _ _ Hrow) as [x' [= -> ->]].
      now exists (PrimFloat.mul p 100%float).
    + exists (position :: hit). split; [simpl; congruence|].
      intros q Hq. rewrite Hsame by (intros Hin; apply Hq; now right).
      apply list_lookup_insert_ne. intros ->. apply Hq. now left.
Qed.

(** X17. When [sample_ten_words] returns, it returns one row for every
    word id, every row holds exactly one number, and all rows but at most
    ten hold 0.0. *)
Theorem sample_ten_words_shape (exp : float -> result float)
    (fsum : list float -> float) (src : BarChartSimple.random_source)
    (word_ids : list Z) (probs : list (list float)) :
  BarChartSimple.sample_ten_words exp fsum src word_ids = inr probs ->
  length probs = length word_ids
  /\ Forall singleton_row probs
  /\ exists hit : list nat,
       length hit <= 10
       /\ forall q row, probs !! q = Some row -> ~ In q hit ->
                        row = [0%float].
Proof.
  unfold BarChartSimple.sample_ten_words. cbv beta delta [bind].
  destruct (BarChartSimple.choices src word_ids 10) as [e|ten_samples] eqn:Hc;
    [discriminate|].
  match goal with
  | |- context [mapM ?f (seq 0 10)] =>
      destruct (mapM f (seq 0 10)) as [e|ten_numbers]; [discriminate|]
  end.
  match goal with
  | |- context [mapM ?f ten_numbers] =>
      destruct (mapM f ten_numbers) as [e|ten_probs]; [discriminate|]
  end.
  intros Hloop. apply assign_rows_inv in Hloop as (Hlen & Hshape & hit & Hhit & Hsame).
  rewrite length_map in Hlen. split; [assumption|]. split.
  - apply Hshape. apply Forall_map. apply List.Forall_forall. intros i _.
    now exists 0%float.
  - exists hit. split.
    + apply mapM_length in Hc. rewrite length_seq in Hc.
      rewrite Hhit, length_combine. lia.
    + intros q row Hrow Hq. rewrite (Hsame q Hq) in Hrow.
      rewrite list_lookup_fmap in Hrow.
      destruct (word_ids !! q); simpl in Hrow; congruence.
Qed.

Lemma sample_ten_words_shape_witness :
  length [[10%float]; [10%float]; [10%float]] = length [0; 1; 2]%Z
  /\ Forall singleton_row [[10%float]; [10%float]; [10%float]]
  /\ exists hit : list nat,
       length hit <= 10
       /\ forall q row,
            [[10%float]; [10%float]; [10%float]] !! q = Some row ->
            ~ In q hit -> row = [0%float].
Proof.
  refine (sample_ten_words_shape flat_exp sum_left round_robin [0; 1; 2]%Z
            [[10%float]; [10%float]; [10%float]] _).
  vm_compute. reflexivity.
Defined.

Lemma mapM_ret {A B} (g : A -> B) (l : list A) :
  mapM (fun a => ret (g a)) l = inr (map g l).
Proof. induction l as [|a l IH]; simpl; [reflexivity|]. now rewrite IH. Qed.

Lemma choices_nonempty (src : BarChartSimple.random_source)
    (population : list Z) (k : nat) :
  population <> [] ->
  BarChartSimple.choices src population k
  = inr (map (fun j =>
                nth (BarChartSimple.pick src j mod length population)
                  population 0%Z)
             (seq 0 k)).
Proof.
  intros Hne. unfold BarChartSimple.choices.
  destruct population as [|z rest]; [contradiction|]. apply mapM_ret.
Qed.

Lemma map_fst_combine_same {A B C} (f : A -> C) (l : list A) (l' : list B) :
  length l = length l' ->
  map (fun x => f (fst x)) (combine l l') = map f l.
Proof.
  revert l'. induction l as [|a l IH]; intros [|b l'] Hlen; simpl;
    try discriminate; [reflexivity|].
  rewrite IH; [reflexivity|now injection Hlen].
Qed.

Lemma py_index_in_range (n : nat) (i : Z) :
  (0 <= i < Z.of_nat n)%Z -> BarChartSimple.py_index n i = inr (Z.to_nat i).
Proof.
  intros Hi. unfold BarChartSimple.py_index.
  destruct (Z.leb_spec 0 i); [|lia].
  destruct (Z.ltb_spec i (Z.of_nat n)); [reflexivity|lia].
Qed.

(** The loop of the assignments returns when every index is one of a
    row and no row is empty. *)
Lemma assign_rows_total (pairs : list (Z * float)) :
  forall probs,
    Forall (fun row => row <> []) probs ->
    Forall (fun ip => (0 <= fst ip < Z.of_nat (length probs))%Z) pairs ->
    exists probs', BarChartSimple.assign_rows probs pairs = inr probs'.
Proof.
  induction pairs as [|[i p] pairs IH]; intros probs Hrows Hpairs; simpl.
  - eauto.
  - inversion Hpairs as [|? ? Hi Hrest]; subst. simpl in Hi.
    rewrite py_index_in_range by assumption. simpl.
    destruct (probs !! Z.to_nat i) as [row|] eqn:Hrow.
    + destruct row as [|x rest].
      * rewrite Forall_lookup in Hrows. now destruct (Hrows _ _ Hrow).
      * apply IH.
        -- apply Forall_insert; [assumption|discriminate].
        -- now rewrite length_insert.
    + apply lookup_ge_None in Hrow. lia.
Qed.

Lemma random_noise_default (u : float) :
  BarChartSimple.random_noise (-1) 1 u
  = inr (PrimFloat.add (PrimFloat.mul u 2%float) (-1)%float).
Proof. reflexivity. Qed.

Lemma float_of_small_int (i : nat) :
  i < 10 -> exists x, BarChartSimple.float_of_int (Z.of_nat i) = inr x.
Proof.
  intros Hi.
  do 10 (destruct i as [|i]; [eexists; vm_compute; reflexivity|]). lia.
Qed.

(** X18. The word ids that [download_word_vocabulary] returns are the
    positions 0, 1, ... of the words. With them [sample_ten_words]
    raises [IndexError] when the word list is empty, and otherwise
    raises nothing but what [math.exp] raises or a [ZeroDivisionError]
    for a sum of zero: every sampled id is the index of a row. *)
Theorem sample_after_download (decode : string -> result string)
    (exp : float -> result float) (fsum : list float -> float)
    (src : BarChartSimple.random_source) (content_lines : list string)
    (word_vocab : list string) (word_ids : list Z) :
  BarChartSimple.download_word_vocabulary decode content_lines
  = inr (word_vocab, word_ids) ->
  word_ids = map Z.of_nat (seq 0 (length word_vocab))
  /\ length word_vocab = length content_lines
  /\ (word_vocab = [] ->
      BarChartSimple.sample_ten_words exp fsum src word_ids
      = inl BarChartSimple.IndexError)
  /\ (word_vocab <> [] ->
      forall e,
        BarChartSimple.sample_ten_words exp fsum src word_ids = inl e ->
        e = BarChartSimple.ZeroDivisionError \/ exists x, exp x = inl e).
Proof.
  unfold BarChartSimple.download_word_vocabulary.
  destruct (mapM decode content_lines) as [e|vocab] eqn:Hdecode; simpl;
    [discriminate|].
  intros [= <- <-].
  assert (Hids : map (fun x : nat * string => Z.of_nat (fst x))
                   (combine (seq 0 (length vocab)) vocab)
                 = map Z.of_nat (seq 0 (length vocab)))
    by (apply map_fst_combine_same; now rewrite length_seq).
  rewrite Hids. split; [reflexivity|].
  split; [now apply mapM_length in Hdecode|]. split.
  - intros ->. reflexivity.
  - intros Hne e.
    set (word_ids := map Z.of_nat (seq 0 (length vocab))).
    assert (Hn : length word_ids = length vocab)
      by (unfold word_ids; now rewrite length_map, length_seq).
    assert (Hpos : length vocab <> 0) by (destruct vocab; simpl; congruence).
    unfold BarChartSimple.sample_ten_words. cbv beta delta [bind].
    rewrite choices_nonempty
      by (intros E; rewrite E in Hn; simpl in Hn; lia).
    match goal with
    | |- context [mapM ?f (seq 0 10)] =>
        destruct (mapM f (seq 0 10)) as [e'|ten_numbers] eqn:Hnumbers
    end.
    { intros [= <-]. right.
      apply mapM_error in Hnumbers as (i & Hi & Hf).
      apply in_seq in Hi. rewrite random_noise_default in Hf.
      destruct (float_of_small_int i) as [x Hx]; [lia|].
      rewrite Hx in Hf. eauto. }
    match goal with
    | |- context [mapM ?f ten_numbers] =>
        destruct (mapM f ten_numbers) as [e'|ten_probs] eqn:Hprobs
    end.
    { intros [= <-]. left.
      apply mapM_error in Hprobs as (n & _ & Hf).
      unfold raise, ret in Hf.
      destruct (PrimFloat.eqb (fsum ten_numbers) 0%float); congruence. }
    intros Hloop. exfalso.
    match type of Hloop with
    | BarChartSimple.assign_rows ?rows ?pairs = _ =>
        destruct (assign_rows_total pairs rows) as [probs' Hok]
    end.
    + apply Forall_map. apply List.Forall_forall. intros; discriminate.
    + rewrite length_map, Hn.
      apply List.Forall_forall. intros [i p] Hin. simpl.
      apply in_combine_l, in_map_iff in Hin as (j & <- & _).
      pose proof (Nat.mod_upper_bound (BarChartSimple.pick src j)
                    (length vocab) Hpos) as Hm.
      unfold word_ids.
      rewrite (nth_indep _ 0%Z (Z.of_nat 0))
        by (rewrite length_map, length_seq; lia).
      rewrite map_nth, seq_nth by lia. lia.
    + congruence.
Qed.

Lemma sample_after_download_witness :
  [0; 1; 2]%Z = map Z.of_nat (seq 0 (length three_lines))
  /\ length three_lines = length three_lines
  /\ (three_lines = [] ->
      BarChartSimple.sample_ten_words flat_exp sum_left round_robin
        [0; 1; 2]%Z
      = inl BarChartSimple.IndexError)
  /\ (three_lines <> [] ->
      forall e,
        BarChartSimple.sample_ten_words flat_exp sum_left round_robin
          [0; 1; 2]%Z = inl e ->
        e = BarChartSimple.ZeroDivisionError
        \/ exists x, flat_exp x = inl e).
Proof.
  exact (sample_after_download accept_all flat_exp sum_left round_robin
           three_lines three_lines [0; 1; 2]%Z eq_refl).
Defined.

(** * Cycles of update and display *)

(** X19. What is assigned through the setter is what the next
    [format()] puts into the formatted context; that [format()] leaves
    the formatter unmarked, and formatting once more gives the same
    context and the same formatter. *)
Theorem format_after_setter (f : SoftmaxFormatter.t)
    (value : list SoftmaxFormatter.Continuation) :
  let '(formatted, f') :=
    SoftmaxFormatter.format (SoftmaxFormatter.possibilities_setter f value) in
  SoftmaxFormatter.fc_possibilities formatted = value
  /\ SoftmaxFormatter.fc_name formatted = SoftmaxFormatter.name f
  /\ SoftmaxFormatter.fc_address formatted = SoftmaxFormatter.endpoint_url f
  /\ SoftmaxFormatter.changed f' = false
  /\ SoftmaxFormatter.format f' = (formatted, f').
Proof. unfold SoftmaxFormatter.format. simpl. repeat split. Qed.

(** X20. When one of the three sequences is empty there is no candidate:
    the call computes no metric and returns, whatever the mixin holds,
    and the element is given an empty list of pieces in place of the
    pieces it had. *)
Theorem no_candidates_no_pieces {Tensor} (self : MetricsMixin.t Tensor)
    (generated_text_list : list string) (label_text : string)
    (probs_encoded_list generated_encoded_list : list Tensor)
    (element : MetricsMixin.BarChartElement) :
  generated_text_list = [] \/ probs_encoded_list = []
  \/ generated_encoded_list = [] ->
  MetricsMixin._compute_n_display_metrics_for_element self
    generated_text_list label_text probs_encoded_list generated_encoded_list
    element
  = (inr tt, MetricsMixin.set_piece_infos element []).
Proof.
  intros Hempty.
  assert (Hz : MetricsMixin.zip3 generated_text_list probs_encoded_list
                 generated_encoded_list = []).
  { apply length_zero_iff_nil. rewrite zip3_length.
    destruct Hempty as [-> | [-> | ->]]; simpl; lia. }
  unfold MetricsMixin._compute_n_display_metrics_for_element.
  now rewrite Hz.
Qed.

Lemma no_candidates_no_pieces_witness :
  MetricsMixin._compute_n_display_metrics_for_element example_mixin
    ["good"; ""] "target" [] [[]; []]
    (MetricsMixin.mkBarChartElement true false
       [MetricsMixin.mkPieceInfo "old" [] [] []])
  = (inr tt,
     MetricsMixin.set_piece_infos
       (MetricsMixin.mkBarChartElement true false
          [MetricsMixin.mkPieceInfo "old" [] [] []]) []).
Proof.
  refine (no_candidates_no_pieces example_mixin ["good"; ""] "target" []
            [[]; []] _ _).
  right. left. reflexivity.
Defined.

(** X21. When [compute_n_display_metrics_on_target] returns, the element
    of the target holds one piece, titled with the target, with the bars
    of the selected metrics; or no piece at all, when no probabilities or
    no ids were given for the target. *)
Theorem target_chart_has_one_piece {Tensor}
    (self self' : MetricsMixin.t Tensor)
    (target : string) (probs_target target_encoded : list Tensor) :
  MetricsMixin.compute_n_display_metrics_on_target self target probs_target
    target_encoded = (inr tt, self') ->
  match probs_target, target_encoded with
  | _ :: _, _ :: _ =>
      exists piece,
        MetricsMixin.piece_infos
          (MetricsMixin._display_metrics_on_target_element self') = [piece]
        /\ MetricsMixin.pieceTitle piece = target
        /\ MetricsMixin.barNames piece = MetricsMixin.selected_names self
  | _, _ =>
      MetricsMixin.piece_infos
        (MetricsMixin._display_metrics_on_target_element self') = []
  end.
Proof.
  unfold MetricsMixin.compute_n_display_metrics_on_target.
  destruct (MetricsMixin._compute_n_display_metrics_for_element self [target]
              target probs_target target_encoded _) as [r element] eqn:Hc.
  intros [= -> <-]. simpl.
  pose proof (compute_titles _ _ _ _ _ _ _ Hc) as Htitles.
  apply compute_success_inv in Hc as (pieces & Hloop & ->). simpl in *.
  apply outer_loop_pieces in Hloop as (new & -> & Hnew). simpl in *.
  destruct probs_target as [|pt probs_target];
    [now destruct new|].
  destruct target_encoded as [|te target_encoded];
    [now destruct new|].
  simpl in *. inversion Hnew as [|c piece cs ps (Htitle & Hnames & _) Hrest];
    subst.
  inversion Hrest; subst. exists piece. auto.
Qed.

Lemma target_chart_has_one_piece_witness :
  exists piece,
    [MetricsMixin.mkPieceInfo "target" [100%float] ["0.37"] ["nll"]] = [piece]
    /\ MetricsMixin.pieceTitle piece = "target"
    /\ MetricsMixin.barNames piece = MetricsMixin.selected_names nll_mixin.
Proof.
  exact (target_chart_has_one_piece nll_mixin
           (MetricsMixin.mk (MetricsMixin._ordering nll_mixin)
              (MetricsMixin._select_metrics_elements nll_mixin)
              [] [("nll", nll)] (new_chart true)
              (MetricsMixin.mkBarChartElement true true
                 [MetricsMixin.mkPieceInfo "target" [100%float] ["0.37"]
                    ["nll"]]))
           "target" [[]] [[]] eq_refl).
Defined.
